(** * refinebio: the smashing pipeline, the ArrayExpress downloader and the
      transcriptome-index surveyor, embedded in Rocq.

    Sources embedded here:
    - [workers/data_refinery_workers/processors/smasher.py]
    - [workers/data_refinery_workers/downloaders/array_express.py]
    - [foreman/data_refinery_foreman/surveyor/transcriptome_index.py]

    Python objects that the code mutates in place (the [job_context] dict, the
    [Job] and [Dataset] model instances) are threaded explicitly through a
    state-and-exception monad; collaborators that live outside these three
    files (S3, SES, Slack, the R normalisation code, scikit-learn, the
    database) are section variables whose outcome is either a value or a
    raised exception. *)

From Stdlib Require Import ZArith String Ascii List Lia Permutation.
From stdpp Require Import base option list strings pretty gmap.

Set Default Proof Using "Type".
Local Open Scope string_scope.
Local Open Scope list_scope.

(** ** Python exceptions and outcomes *)

Inductive exn : Type :=
| KeyError (key : string)
| IndexError (msg : string)
| ValueError (msg : string)
| AssertionError (msg : string)
| OSError (msg : string)
| ClientError (msg : string)
| ProcessorJobError (msg : string) (success : bool)
| OtherError (msg : string).

(** [str(e)] *)
Definition str_exn (e : exn) : string :=
  match e with
  | KeyError k => "'" +:+ k +:+ "'"
  | IndexError m | ValueError m | AssertionError m | OSError m
  | ClientError m | OtherError m => m
  | ProcessorJobError m _ => m
  end.

Inductive result (A : Type) : Type :=
| Ok (a : A)
| Raise (e : exn).
Arguments Ok {A} a.
Arguments Raise {A} e.

Definition is_Ok {A} (r : result A) : bool :=
  match r with Ok _ => true | Raise _ => false end.

(** ** A pandas data frame

    Rows are labelled by [index] (feature identifiers), columns by [columns]
    (sample accession codes); [values] is row-major.  The cell type [V] stands
    for the floating point cells: merging and transposing never compute on
    them. *)

Section Frame.
Context {V : Type}.

Record DataFrame : Type := mkDataFrame {
  index : list string;
  columns : list string;
  values : list (list V)
}.

(** pandas only ever builds rectangular frames *)
Definition wf (df : DataFrame) : Prop :=
  length (values df) = length (index df) ∧
  Forall (λ r, length r = length (columns df)) (values df).

(** [len(df)] is the number of rows *)
Definition len (df : DataFrame) : nat := length (index df).

(** [pd.DataFrame()] *)
Definition empty_frame : DataFrame := mkDataFrame [] [] [].

Definition rows (df : DataFrame) : list (string * list V) :=
  zip (index df) (values df).

(** Rows of the inner join on the row label, in the order of the left
    frame: each left row is paired with every right row of the same
    label. *)
Definition join_rows (l r : list (string * list V)) : list (string * list V) :=
  flat_map (λ lr, map (λ rr, (lr.1, lr.2 ++ rr.2))
                      (filter (λ rr, rr.1 = lr.1) r)) l.

(** Column labels of a merge: a label present on both sides gets the
    default suffixes [_x] and [_y]. *)
Definition merge_columns (lc rc : list string) : list string :=
  map (λ c, if bool_decide (c ∈ rc) then c +:+ "_x" else c) lc ++
  map (λ c, if bool_decide (c ∈ lc) then c +:+ "_y" else c) rc.

(** [left.merge(right, how='inner', left_index=True, right_index=True)] *)
Definition merge (left right : DataFrame) : DataFrame :=
  let jr := join_rows (rows left) (rows right) in
  {| index := jr.*1;
     columns := merge_columns (columns left) (columns right);
     values := jr.*2 |}.

(** [df.transpose()]: labels swap, cell (i, j) moves to (j, i).  The column
    count is taken from the labels, so a frame without rows keeps its
    columns through the transpose. *)
Definition transpose_values (ncols : nat) (vs : list (list V)) : list (list V) :=
  map (λ j, omap (λ r, r !! j) vs) (seq 0 ncols).

Definition transpose (df : DataFrame) : DataFrame :=
  {| index := columns df;
     columns := index df;
     values := transpose_values (length (columns df)) (values df) |}.

(** [pd.DataFrame(data, index=..., columns=...)]: raises [ValueError] when
    the shape of [data] does not fit the labels. *)
Definition shape_ok (nrows ncols : nat) (vs : list (list V)) : bool :=
  bool_decide (length vs = nrows) &&
  forallb (λ r, bool_decide (length r = ncols)) vs.

Definition DataFrame_of (data : list (list V)) (idx cols : list string)
  : result DataFrame :=
  if shape_ok (length idx) (length cols) data
  then Ok (mkDataFrame idx cols data)
  else Raise (ValueError "Shape of passed values does not match the labels").

(** two matrices with as many rows, and row by row as many cells *)
Definition same_shape (a b : list (list V)) : Prop :=
  Forall2 (λ r r', length r = length r') a b.

End Frame.
Arguments DataFrame V : clear implicits.

(** ** Model instances and the job context (smasher.py) *)

Module Job.
Record t : Type := mk {
  success : option bool;          (* [None] while the job is running *)
  failure_reason : option string
}.
Definition set_success (b : option bool) (j : t) : t :=
  mk b (failure_reason j).
Definition set_failure_reason (r : option string) (j : t) : t :=
  mk (success j) r.
End Job.

Module Dataset.
Record t : Type := mk {
  pk : string;
  aggregate_by : string;
  scale_by : string;
  quantile_normalize : bool;
  quant_sf_only : bool;
  success : option bool;
  failure_reason : option string;
  email_address : option string;
  s3_bucket : option string;
  s3_key : option string;
  size_in_bytes : option Z;
  sha1 : option string;
  is_processing : bool;
  is_processed : bool;
  is_available : bool
}.
Definition set_success (b : option bool) (d : t) : t :=
  mk (pk d) (aggregate_by d) (scale_by d) (quantile_normalize d)
     (quant_sf_only d) b (failure_reason d) (email_address d) (s3_bucket d)
     (s3_key d) (size_in_bytes d) (sha1 d) (is_processing d)
     (is_processed d) (is_available d).
Definition set_failure_reason (r : option string) (d : t) : t :=
  mk (pk d) (aggregate_by d) (scale_by d) (quantile_normalize d)
     (quant_sf_only d) (success d) r (email_address d) (s3_bucket d)
     (s3_key d) (size_in_bytes d) (sha1 d) (is_processing d)
     (is_processed d) (is_available d).
Definition set_s3_bucket (x : option string) (d : t) : t :=
  mk (pk d) (aggregate_by d) (scale_by d) (quantile_normalize d)
     (quant_sf_only d) (success d) (failure_reason d) (email_address d)
     x (s3_key d) (size_in_bytes d) (sha1 d) (is_processing d)
     (is_processed d) (is_available d).
Definition set_s3_key (x : option string) (d : t) : t :=
  mk (pk d) (aggregate_by d) (scale_by d) (quantile_normalize d)
     (quant_sf_only d) (success d) (failure_reason d) (email_address d)
     (s3_bucket d) x (size_in_bytes d) (sha1 d) (is_processing d)
     (is_processed d) (is_available d).
Definition set_size_in_bytes (x : option Z) (d : t) : t :=
  mk (pk d) (aggregate_by d) (scale_by d) (quantile_normalize d)
     (quant_sf_only d) (success d) (failure_reason d) (email_address d)
     (s3_bucket d) (s3_key d) x (sha1 d) (is_processing d)
     (is_processed d) (is_available d).
Definition set_sha1 (x : option string) (d : t) : t :=
  mk (pk d) (aggregate_by d) (scale_by d) (quantile_normalize d)
     (quant_sf_only d) (success d) (failure_reason d) (email_address d)
     (s3_bucket d) (s3_key d) (size_in_bytes d) x (is_processing d)
     (is_processed d) (is_available d).
Definition close_out (d : t) : t :=
  mk (pk d) (aggregate_by d) (scale_by d) (quantile_normalize d)
     (quant_sf_only d) (success d) (failure_reason d) (email_address d)
     (s3_bucket d) (s3_key d) (size_in_bytes d) (sha1 d) false true true.
End Dataset.

Record Sample : Type := mkSample {
  accession_code : string;
  organism_of : string
}.

Record ComputedFile : Type := mkComputedFile {
  filename : string
}.

Inductive level : Type := DEBUG | INFO | WARNING | ERROR | EXCEPTION.

(** The [job_context] dict of one run.  Keys that the code reads with
    [.get(key, default)] or that may be missing are options.  The last two
    fields are not keys of the dict: [db] is the sequence of rows written by
    [dataset.save()], oldest first, and [logs] is what went to the logger. *)
Record JobContext {V : Type} : Type := mkJobContext {
  job : Job.t;
  dataset : Dataset.t;
  upload : option bool;
  input_files : option (list (string * list (ComputedFile * Sample)));
  all_frames : list (DataFrame V);
  unsmashable_files : list string;
  num_samples : nat;
  original_merged : option (DataFrame V);
  merged_no_qn : option (DataFrame V);
  merged_qn : option (DataFrame V);
  organism : option string;
  final_frame : option (DataFrame V);
  smash_outfile : option string;
  work_dir : string;
  output_dir : string;
  output_file : option string;
  result_url : option string;
  ctx_success : option bool;
  ctx_failure_reason : option string;
  db : list Dataset.t;
  logs : list (level * string)
}.
Arguments JobContext V : clear implicits.
Arguments mkJobContext {V}.

(** Assignments to one key of the context. *)
Section Setters.
Context {V : Type}.
Implicit Type c : JobContext V.

Definition set_job x c : JobContext V :=
  mkJobContext x (dataset c) (upload c) (input_files c) (all_frames c)
    (unsmashable_files c) (num_samples c) (original_merged c)
    (merged_no_qn c) (merged_qn c) (organism c) (final_frame c)
    (smash_outfile c) (work_dir c) (output_dir c) (output_file c)
    (result_url c) (ctx_success c) (ctx_failure_reason c) (db c) (logs c).
Definition set_dataset x c : JobContext V :=
  mkJobContext (job c) x (upload c) (input_files c) (all_frames c)
    (unsmashable_files c) (num_samples c) (original_merged c)
    (merged_no_qn c) (merged_qn c) (organism c) (final_frame c)
    (smash_outfile c) (work_dir c) (output_dir c) (output_file c)
    (result_url c) (ctx_success c) (ctx_failure_reason c) (db c) (logs c).
Definition set_input_files x c : JobContext V :=
  mkJobContext (job c) (dataset c) (upload c) x (all_frames c)
    (unsmashable_files c) (num_samples c) (original_merged c)
    (merged_no_qn c) (merged_qn c) (organism c) (final_frame c)
    (smash_outfile c) (work_dir c) (output_dir c) (output_file c)
    (result_url c) (ctx_success c) (ctx_failure_reason c) (db c) (logs c).
Definition set_all_frames x c : JobContext V :=
  mkJobContext (job c) (dataset c) (upload c) (input_files c) x
    (unsmashable_files c) (num_samples c) (original_merged c)
    (merged_no_qn c) (merged_qn c) (organism c) (final_frame c)
    (smash_outfile c) (work_dir c) (output_dir c) (output_file c)
    (result_url c) (ctx_success c) (ctx_failure_reason c) (db c) (logs c).
Definition set_unsmashable_files x c : JobContext V :=
  mkJobContext (job c) (dataset c) (upload c) (input_files c)
    (all_frames c) x (num_samples c) (original_merged c) (merged_no_qn c)
    (merged_qn c) (organism c) (final_frame c) (smash_outfile c)
    (work_dir c) (output_dir c) (output_file c) (result_url c)
    (ctx_success c) (ctx_failure_reason c) (db c) (logs c).
Definition set_num_samples x c : JobContext V :=
  mkJobContext (job c) (dataset c) (upload c) (input_files c)
    (all_frames c) (unsmashable_files c) x (original_merged c)
    (merged_no_qn c) (merged_qn c) (organism c) (final_frame c)
    (smash_outfile c) (work_dir c) (output_dir c) (output_file c)
    (result_url c) (ctx_success c) (ctx_failure_reason c) (db c) (logs c).
Definition set_original_merged x c : JobContext V :=
  mkJobContext (job c) (dataset c) (upload c) (input_files c)
    (all_frames c) (unsmashable_files c) (num_samples c) x
    (merged_no_qn c) (merged_qn c) (organism c) (final_frame c)
    (smash_outfile c) (work_dir c) (output_dir c) (output_file c)
    (result_url c) (ctx_success c) (ctx_failure_reason c) (db c) (logs c).
Definition set_merged_no_qn x c : JobContext V :=
  mkJobContext (job c) (dataset c) (upload c) (input_files c)
    (all_frames c) (unsmashable_files c) (num_samples c)
    (original_merged c) x (merged_qn c) (organism c) (final_frame c)
    (smash_outfile c) (work_dir c) (output_dir c) (output_file c)
    (result_url c) (ctx_success c) (ctx_failure_reason c) (db c) (logs c).
Definition set_merged_qn x c : JobContext V :=
  mkJobContext (job c) (dataset c) (upload c) (input_files c)
    (all_frames c) (unsmashable_files c) (num_samples c)
    (original_merged c) (merged_no_qn c) x (organism c) (final_frame c)
    (smash_outfile c) (work_dir c) (output_dir c) (output_file c)
    (result_url c) (ctx_success c) (ctx_failure_reason c) (db c) (logs c).
Definition set_organism x c : JobContext V :=
  mkJobContext (job c) (dataset c) (upload c) (input_files c)
    (all_frames c) (unsmashable_files c) (num_samples c)
    (original_merged c) (merged_no_qn c) (merged_qn c) x (final_frame c)
    (smash_outfile c) (work_dir c) (output_dir c) (output_file c)
    (result_url c) (ctx_success c) (ctx_failure_reason c) (db c) (logs c).
Definition set_final_frame x c : JobContext V :=
  mkJobContext (job c) (dataset c) (upload c) (input_files c)
    (all_frames c) (unsmashable_files c) (num_samples c)
    (original_merged c) (merged_no_qn c) (merged_qn c) (organism c) x
    (smash_outfile c) (work_dir c) (output_dir c) (output_file c)
    (result_url c) (ctx_success c) (ctx_failure_reason c) (db c) (logs c).
Definition set_smash_outfile x c : JobContext V :=
  mkJobContext (job c) (dataset c) (upload c) (input_files c)
    (all_frames c) (unsmashable_files c) (num_samples c)
    (original_merged c) (merged_no_qn c) (merged_qn c) (organism c)
    (final_frame c) x (work_dir c) (output_dir c) (output_file c)
    (result_url c) (ctx_success c) (ctx_failure_reason c) (db c) (logs c).
Definition set_output_file x c : JobContext V :=
  mkJobContext (job c) (dataset c) (upload c) (input_files c)
    (all_frames c) (unsmashable_files c) (num_samples c)
    (original_merged c) (merged_no_qn c) (merged_qn c) (organism c)
    (final_frame c) (smash_outfile c) (work_dir c) (output_dir c) x
    (result_url c) (ctx_success c) (ctx_failure_reason c) (db c) (logs c).
Definition set_result_url x c : JobContext V :=
  mkJobContext (job c) (dataset c) (upload c) (input_files c)
    (all_frames c) (unsmashable_files c) (num_samples c)
    (original_merged c) (merged_no_qn c) (merged_qn c) (organism c)
    (final_frame c) (smash_outfile c) (work_dir c) (output_dir c)
    (output_file c) x (ctx_success c) (ctx_failure_reason c) (db c)
    (logs c).
Definition set_ctx_success x c : JobContext V :=
  mkJobContext (job c) (dataset c) (upload c) (input_files c)
    (all_frames c) (unsmashable_files c) (num_samples c)
    (original_merged c) (merged_no_qn c) (merged_qn c) (organism c)
    (final_frame c) (smash_outfile c) (work_dir c) (output_dir c)
    (output_file c) (result_url c) x (ctx_failure_reason c) (db c)
    (logs c).
Definition set_ctx_failure_reason x c : JobContext V :=
  mkJobContext (job c) (dataset c) (upload c) (input_files c)
    (all_frames c) (unsmashable_files c) (num_samples c)
    (original_merged c) (merged_no_qn c) (merged_qn c) (organism c)
    (final_frame c) (smash_outfile c) (work_dir c) (output_dir c)
    (output_file c) (result_url c) (ctx_success c) x (db c) (logs c).
Definition set_db x c : JobContext V :=
  mkJobContext (job c) (dataset c) (upload c) (input_files c)
    (all_frames c) (unsmashable_files c) (num_samples c)
    (original_merged c) (merged_no_qn c) (merged_qn c) (organism c)
    (final_frame c) (smash_outfile c) (work_dir c) (output_dir c)
    (output_file c) (result_url c) (ctx_success c) (ctx_failure_reason c)
    x (logs c).
Definition set_logs x c : JobContext V :=
  mkJobContext (job c) (dataset c) (upload c) (input_files c)
    (all_frames c) (unsmashable_files c) (num_samples c)
    (original_merged c) (merged_no_qn c) (merged_qn c) (organism c)
    (final_frame c) (smash_outfile c) (work_dir c) (output_dir c)
    (output_file c) (result_url c) (ctx_success c) (ctx_failure_reason c)
    (db c) x.
End Setters.

(** ** The state-and-exception monad of one run

    A computation reads and mutates the context and either returns a value or
    raises.  Mutations made before an exception is raised stay visible to the
    handler, as they do on a Python dict mutated in place. *)

Definition M (V A : Type) : Type := JobContext V → result A * JobContext V.

Section Monad.
Context {V : Type}.

Definition ret {A} (a : A) : M V A := λ c, (Ok a, c).
Definition raise {A} (e : exn) : M V A := λ c, (Raise e, c).
Definition bind {A B} (m : M V A) (k : A → M V B) : M V B :=
  λ c, match m c with
       | (Ok a, c') => k a c'
       | (Raise e, c') => (Raise e, c')
       end.
(** [try: m  except Exception as e: h e] *)
Definition try_except {A} (m : M V A) (h : exn → M V A) : M V A :=
  λ c, match m c with
       | (Ok a, c') => (Ok a, c')
       | (Raise e, c') => h e c'
       end.
Definition get {A} (f : JobContext V → A) : M V A := λ c, (Ok (f c), c).
Definition modify (f : JobContext V → JobContext V) : M V unit :=
  λ c, (Ok tt, f c).
(** the outcome of a call that does not touch the context *)
Definition call {A} (r : result A) : M V A := λ c, (r, c).

Definition log (l : level) (msg : string) : M V unit :=
  modify (λ c, set_logs (logs c ++ [(l, msg)]) c).
(** [job_context['dataset'].save()] *)
Definition save_dataset : M V unit :=
  modify (λ c, set_db (db c ++ [dataset c]) c).
Definition when (b : bool) (m : M V unit) : M V unit :=
  if b then m else ret tt.
End Monad.

Declare Scope run_scope.
Delimit Scope run_scope with run.
Notation "'let*' x ':=' m 'in' k" := (bind m (λ x, k))
  (at level 10, x name, m at level 100, k at level 200) : run_scope.
Notation "m ';;' k" := (bind m (λ _, k))
  (at level 100, k at level 200, right associativity) : run_scope.

(** ** Collaborators outside smasher.py

    Each is a function from its arguments to an outcome; the two that receive
    the whole context ([smashing_utils.quantile_normalize] and
    [smashing_utils.write_non_data_files]) may also mutate it. *)
Class Externals (V : Type) : Type := {
  RUNNING_IN_CLOUD : bool;
  RESULTS_BUCKET : string;
  process_frame : string → ComputedFile → string → string → option (DataFrame V);
  sync_quant_files : string → list Sample → result nat;
  first_sample_organism : Dataset.t → result string;
  quantile_normalize : M V unit;
  MinMaxScaler : list (list V) → result (list (list V));
  StandardScaler : list (list V) → result (list (list V));
  RobustScaler : list (list V) → result (list (list V));
  makedirs : string → result unit;
  to_csv : DataFrame V → string → result unit;
  write_non_data_files : M V unit;
  make_archive : string → string → result unit;
  s3_upload_file : string → string → string → result unit;
  calculate_file_size : string → result Z;
  calculate_sha1 : string → result string;
  os_remove : string → result unit;
  (* Slack webhook: dataset url, attachment text, author name *)
  requests_post : string → option string → option string → result unit;
  (* BODY_ERROR_HTML and BODY_HTML with their placeholders replaced *)
  render_error_html : string → string → string;
  render_html : string → string;
  (* SES: recipient, subject, text body, html body *)
  ses_send_email : string → string → string → string → result unit
}.

(** ** [_inner_join] *)
Section InnerJoin.
Context {V : Type}.
Local Open Scope run_scope.

(** the local variables of the [while] loop *)
Record Locals : Type := mkLocals {
  i : nat;
  merged : DataFrame V;
  old_len_merged : nat;
  merged_backup : DataFrame V
}.

(** [for column in frame.columns: if column in merged.columns: breaker = True] *)
Definition breaker (frame merged : DataFrame V) : bool :=
  existsb (λ column, bool_decide (column ∈ columns merged)) (columns frame).

(** One pass through the body of the [while] loop. *)
Definition loop_body (frame : DataFrame V) (l : Locals) : M V Locals :=
  let i := i l + 1 in
  when (bool_decide (i `mod` 1000 = 0)) (log INFO "Smashing keyframe") ;;
  if breaker frame (merged l) then
    log WARNING "Column repeated for smash job!" ;;
    (* continue *)
    ret (mkLocals i (merged l) (old_len_merged l) (merged_backup l))
  else
    let merged := merge (merged l) frame in
    let new_len_merged := len merged in
    when (bool_decide (new_len_merged < old_len_merged l))
         (log WARNING "Dropped rows while smashing!") ;;
    let* merged :=
      (if bool_decide (new_len_merged = 0) then
         log WARNING "Skipping a bad merge frame!" ;;
         try_except
           (match columns frame with
            | c :: _ => modify (λ s, set_unsmashable_files (unsmashable_files s ++ [c]) s)
            | [] => raise (IndexError "index 0 is out of bounds for axis 0 with size 0")
            end)
           (λ _, ret tt) ;;
         ret (merged_backup l)
       else ret merged) in
    ret (mkLocals i merged (len merged) merged).

Fixpoint while_loop (frames : list (DataFrame V)) (l : Locals) : M V Locals :=
  match frames with
  | [] => ret l
  | frame :: rest => let* l' := loop_body frame l in while_loop rest l'
  end.

Definition _inner_join : M V (DataFrame V) :=
  let* frames := get all_frames in
  match frames with
  | [] => raise (IndexError "list index out of range")
  | first :: rest =>
      let* l := while_loop rest (mkLocals 1 first (len first) first) in
      ret (merged l)
  end.
End InnerJoin.
Arguments Locals V : clear implicits.

(** ** [process_frames_for_key], [_smash_key], [_smash_all] *)
Section Smash.
Context {V : Type} `{!Externals V}.
Local Open Scope run_scope.

Fixpoint load_frames (input_files : list (ComputedFile * Sample)) : M V unit :=
  match input_files with
  | [] => ret tt
  | (computed_file, sample) :: rest =>
      let* wd := get work_dir in
      let* ds := get dataset in
      let frame_data := process_frame wd computed_file (accession_code sample)
                                      (Dataset.aggregate_by ds) in
      match frame_data with
      | Some frame =>
          modify (λ c, set_all_frames (all_frames c ++ [frame]) c)
      | None =>
          log WARNING "Unable to smash file" ;;
          modify (λ c, set_unsmashable_files
                         (unsmashable_files c ++ [filename computed_file]) c)
      end ;;
      load_frames rest
  end.

Definition process_frames_for_key (key : string)
    (input_files : list (ComputedFile * Sample)) : M V unit :=
  modify (set_original_merged (Some empty_frame)) ;;
  modify (set_all_frames []) ;;
  load_frames input_files.

(** [SCALERS]: the dict of scikit-learn transformers.  A scaler is fitted
    on, and then applied to, the same matrix. *)
Definition SCALERS (name : string) : option (list (list V) → result (list (list V))) :=
  if bool_decide (name = "MINMAX") then Some MinMaxScaler
  else if bool_decide (name = "STANDARD") then Some StandardScaler
  else if bool_decide (name = "ROBUST") then Some RobustScaler
  else None.

(** The scaler of [_smash_key]: transpose, scale unless [scale_by] is
    ["NONE"], transpose back. *)
Definition scale (scale_by : string) (merged : DataFrame V) : result (DataFrame V) :=
  let transposed := transpose merged in
  if bool_decide (scale_by ≠ "NONE") then
    match SCALERS scale_by with
    | None => Raise (KeyError scale_by)
    | Some scale_funtion =>
        match scale_funtion (values transposed) with
        | Raise e => Raise e
        | Ok data =>
            match DataFrame_of data (index transposed) (columns transposed) with
            | Raise e => Raise e
            | Ok scaled => Ok (transpose scaled)
            end
        end
    end
  else Ok (transpose transposed).

(** [not job_context['job'].failure_reason] *)
Definition falsy (s : option string) : bool :=
  match s with
  | None => true
  | Some r => bool_decide (r = "")
  end.

(** The quantile normalisation block of [_smash_key]: the body of its
    [try], its [except Exception as e] handler, and the two together.
    [Some merged] means that the function goes on with [merged]; [None]
    that the handler has returned the context. *)
Definition normalize_try (merged : DataFrame V) : M V (option (DataFrame V)) :=
  modify (set_merged_no_qn (Some merged)) ;;
  let* ds := get dataset in
  let* o := call (first_sample_organism ds) in
  modify (set_organism (Some o)) ;;
  quantile_normalize ;;
  let* qn := get merged_qn in
  match qn with
  | Some merged => ret (Some merged)
  | None => raise (AssertionError
              "Problem occured during quantile normalization: No merged_qn")
  end.

Definition normalize_except (e : exn) : M V (option (DataFrame V)) :=
  log EXCEPTION "Problem occured during quantile normalization" ;;
  modify (λ c, set_dataset (Dataset.set_success (Some false) (dataset c)) c) ;;
  let* j := get job in
  when (falsy (Job.failure_reason j))
    (modify (λ c, set_job (Job.set_failure_reason
                             (Some ("Failure reason: " +:+ str_exn e)) (job c)) c) ;;
     modify (λ c, set_dataset (Dataset.set_failure_reason
                             (Some ("Failure reason: " +:+ str_exn e)) (dataset c)) c)) ;;
  save_dataset ;;
  modify (λ c, set_job (Job.set_success (Some false) (job c)) c) ;;
  modify (set_ctx_failure_reason (Some (str_exn e))) ;;
  ret None.

Definition normalize_block (merged : DataFrame V) : M V (option (DataFrame V)) :=
  try_except (normalize_try merged) normalize_except.

Definition _smash_key (key : string)
    (input_files : list (ComputedFile * Sample)) : M V unit :=
  let* ds := get dataset in
  if Dataset.quant_sf_only ds then
    let* od := get output_dir in
    let outfile_dir := od +:+ key +:+ "/" in
    call (makedirs outfile_dir) ;;
    let samples := input_files.*2 in
    let* n := call (sync_quant_files outfile_dir samples) in
    modify (λ c, set_num_samples (num_samples c + n) c)
  else
    process_frames_for_key key input_files ;;
    let* frames := get all_frames in
    if bool_decide (length frames < 1) then
      log ERROR "Was told to smash a key with no frames!"
    else
      let* merged := _inner_join in
      modify (set_original_merged (Some merged)) ;;
      let* ds := get dataset in
      let* continue :=
        (if Dataset.quantile_normalize ds
         then normalize_block merged
         else ret (Some merged)) in
      match continue with
      | None => ret tt
      | Some merged =>
          let* ds := get dataset in
          let* untransposed := call (scale (Dataset.scale_by ds) merged) in
          modify (set_final_frame (Some untransposed)) ;;
          let* od := get output_dir in
          let outfile_dir := od +:+ key +:+ "/" in
          call (makedirs outfile_dir) ;;
          let outfile := outfile_dir +:+ key +:+ ".tsv" in
          modify (set_smash_outfile (Some outfile)) ;;
          call (to_csv untransposed outfile)
      end.

Fixpoint smash_keys (items : list (string * list (ComputedFile * Sample))) : M V unit :=
  match items with
  | [] => ret tt
  | (key, input_files) :: rest => _smash_key key input_files ;; smash_keys rest
  end.

Definition _smash_all : M V unit :=
  let* j := get job in
  if bool_decide (Job.success j = Some false) then ret tt
  else
    let* ok :=
      try_except
        (modify (set_unsmashable_files []) ;;
         modify (set_num_samples 0) ;;
         let* items := get input_files in
         match items with
         | None => raise (KeyError "input_files")
         | Some items =>
             modify (set_input_files None) ;;
             smash_keys items ;;
             write_non_data_files ;;
             let* ds := get dataset in
             let* od := get output_dir in
             let final_zip_base := "/home/user/data_store/smashed/" +:+ Dataset.pk ds in
             call (make_archive final_zip_base od) ;;
             modify (set_output_file (Some (final_zip_base +:+ ".zip"))) ;;
             ret true
         end)
        (λ e,
         log EXCEPTION "Could not smash dataset." ;;
         modify (λ c, set_dataset (Dataset.set_success (Some false) (dataset c)) c) ;;
         modify (λ c, set_job (Job.set_failure_reason
                                 (Some ("Failure reason: " +:+ str_exn e)) (job c)) c) ;;
         modify (λ c, set_dataset (Dataset.set_failure_reason
                                 (Some ("Failure reason: " +:+ str_exn e)) (dataset c)) c) ;;
         save_dataset ;;
         modify (λ c, set_job (Job.set_success (Some false) (job c)) c) ;;
         modify (set_ctx_failure_reason (Some (str_exn e))) ;;
         ret false) in
    if ok then
      modify (λ c, set_dataset (Dataset.set_success (Some true) (dataset c)) c) ;;
      save_dataset ;;
      log DEBUG "Created smash output!"
    else ret tt.
End Smash.

(** ** [_upload], [_notify], [_update_result_objects] *)

(** [path.split('/')[-1]] *)
Fixpoint last_component_from (acc s : string) : string :=
  match s with
  | EmptyString => acc
  | String c rest =>
      if bool_decide (c = "/"%char) then last_component_from "" rest
      else last_component_from (acc +:+ String c "") rest
  end.
Definition last_component (path : string) : string :=
  last_component_from "" path.

(** the newline character of the message bodies *)
Definition nl : string := String (ascii_of_nat 10) "".

(** [str(x)] of an optional string *)
Definition str_opt (x : option string) : string := default "None" x.

Section Deliver.
Context {V : Type} `{!Externals V}.
Local Open Scope run_scope.

(** the body of the [try] of [_upload] and its handler *)
Definition upload_try (output_file : string) : M V unit :=
  let* up := get upload in
  if default true up && RUNNING_IN_CLOUD then
    call (s3_upload_file output_file RESULTS_BUCKET
            (last_component output_file)) ;;
    let result_url := "https://s3.amazonaws.com/" +:+ RESULTS_BUCKET
                      +:+ "/" +:+ last_component output_file in
    modify (set_result_url (Some result_url)) ;;
    log DEBUG "Result uploaded!" ;;
    modify (λ c, set_dataset
                   (Dataset.set_s3_bucket (Some RESULTS_BUCKET) (dataset c)) c) ;;
    modify (λ c, set_dataset
                   (Dataset.set_s3_key (Some (last_component output_file))
                                       (dataset c)) c) ;;
    let* size := call (calculate_file_size output_file) in
    modify (λ c, set_dataset
                   (Dataset.set_size_in_bytes (Some size) (dataset c)) c) ;;
    let* sha := call (calculate_sha1 output_file) in
    modify (λ c, set_dataset (Dataset.set_sha1 (Some sha) (dataset c)) c) ;;
    save_dataset ;;
    try_except (call (os_remove output_file))
               (λ e, match e with
                     | OSError _ => ret tt
                     | _ => raise e
                     end)
  else ret tt.

Definition upload_except (e : exn) : M V unit :=
  log EXCEPTION "Failed to upload smash result file." ;;
  modify (λ c, set_job (Job.set_success (Some false) (job c)) c) ;;
  modify (λ c, set_job (Job.set_failure_reason
                          (Some ("Failure reason: " +:+ str_exn e)) (job c)) c).

Definition _upload : M V unit :=
  let* out := get output_file in
  match out with
  | None =>
      log ERROR "Was told to upload a smash result without an output_file."
  | Some output_file =>
      if bool_decide (output_file = "") then
        log ERROR "Was told to upload a smash result without an output_file."
      else try_except (upload_try output_file) upload_except
  end.

Definition dataset_url (d : Dataset.t) : string :=
  "https://www.refine.bio/dataset/" +:+ Dataset.pk d.

Definition _notify_slack_failed_dataset : M V unit :=
  let* ds := get dataset in
  let* j := get job in
  call (requests_post (dataset_url ds) (Job.failure_reason j)
                      (Dataset.email_address ds)).

Definition _notify_send_email : M V unit :=
  let* ds := get dataset in
  let* j := get job in
  let RECIPIENT := str_opt (Dataset.email_address ds) in
  let* mail :=
    (if bool_decide (Job.success j = Some false) then
       let SUBJECT := "There was a problem processing your refine.bio dataset :(" in
       let BODY_TEXT :=
         "We tried but were unable to process your requested dataset. Error was: "
         +:+ nl +:+ nl +:+ str_opt (Job.failure_reason j) +:+ nl +:+ "Dataset ID: "
         +:+ Dataset.pk ds +:+ nl
         +:+ " We have been notified and are looking into the problem. "
         +:+ nl +:+ nl +:+ "Sorry!" in
       match Job.failure_reason j with
       | None => raise (OtherError "replace() argument 2 must be str, not None")
       | Some reason =>
           modify (set_ctx_success (Some false)) ;;
           ret (SUBJECT, BODY_TEXT, render_error_html (dataset_url ds) reason)
       end
     else
       ret ("Your refine.bio Dataset is Ready!",
            "Hot off the presses:" +:+ nl +:+ nl +:+ dataset_url ds +:+ nl +:+ nl
            +:+ "Love!," +:+ nl +:+ "The refine.bio Team",
            render_html (dataset_url ds))) in
  call (ses_send_email RECIPIENT mail.1.1 mail.1.2 mail.2).

Definition _notify : M V unit :=
  let* up := get upload in
  if negb (default true up) || negb RUNNING_IN_CLOUD then ret tt
  else
    let* j := get job in
    when (bool_decide (Job.success j = Some false))
         (try_except _notify_slack_failed_dataset
                     (λ e, log WARNING (str_exn e))) ;;
    let* ds := get dataset in
    when (negb (falsy (Dataset.email_address ds)))
         (try_except _notify_send_email
            (λ e,
             match e with
             | ClientError _ =>
                 raise (ProcessorJobError "ClientError while notifying" false)
             | _ =>
                 let* url := get result_url in
                 match url with
                 | None => raise (KeyError "result_url")
                 | Some _ =>
                     raise (ProcessorJobError
                              "General failure when trying to send email." false)
                 end
             end)).

Definition _update_result_objects : M V unit :=
  modify (λ c, set_dataset (Dataset.close_out (dataset c)) c) ;;
  save_dataset ;;
  modify (set_ctx_success (Some true)).
End Deliver.

(** ** [_verify_batch_grouping] (downloaders/array_express.py) *)

Record Batch : Type := mkBatch {
  batch_id : Z;
  download_url : string
}.

(** The state the function can reach: the batches it was handed and the
    logger. *)
Record Downloader : Type := mkDownloader {
  batches_of : list Batch;
  errors_logged : list string
}.

(** [for batch in batches: ...], with [batches[0]] read at each pass. *)
Fixpoint verify_each (batches rest : list Batch) (job_id : Z) (st : Downloader)
  : result unit * Downloader :=
  match rest with
  | [] => (Ok tt, st)
  | batch :: rest' =>
      match batches !! 0%nat with
      | None => (Raise (IndexError "list index out of range"), st)
      | Some first =>
          if bool_decide (download_url batch ≠ download_url first) then
            (Raise (ValueError
                      "A batch doesn't have the same download url as other batches."),
             mkDownloader (batches_of st)
               (errors_logged st ++
                ["A Batch doesn't have the same download URL as the other batches in downloader job"]))
          else verify_each batches rest' job_id st
      end
  end.

Definition _verify_batch_grouping (batches : list Batch) (job_id : Z)
  : result unit * Downloader :=
  verify_each batches batches job_id (mkDownloader batches []).

(** ** The Ensembl URL builders (surveyor/transcriptome_index.py) *)

(** Values found in the parsed JSON of the Division API. *)
Inductive value : Type :=
| VStr (s : string)
| VInt (n : Z)
| VNone.

(** [str(v)], as [str.format] renders a field *)
Definition str_value (v : value) : string :=
  match v with
  | VStr s => s
  | VInt n => pretty n
  | VNone => "None"
  end.

Definition upper_char (c : ascii) : ascii :=
  let n := nat_of_ascii c in
  if (97 <=? n)%nat && (n <=? 122)%nat then ascii_of_nat (n - 32) else c.
Definition lower_char (c : ascii) : ascii :=
  let n := nat_of_ascii c in
  if (65 <=? n)%nat && (n <=? 90)%nat then ascii_of_nat (n + 32) else c.
Fixpoint lower (s : string) : string :=
  match s with
  | EmptyString => EmptyString
  | String c rest => String (lower_char c) (lower rest)
  end.

(** [s.capitalize()] on ASCII text: first character upper case, the others
    lower case. *)
Definition capitalize (s : string) : string :=
  match s with
  | EmptyString => EmptyString
  | String c rest => String (upper_char c) (lower rest)
  end.

(** [s.replace(old, new)] for a non-empty [old]: left to right, occurrences
    do not overlap.  [skip] counts the characters of a match still to drop. *)
Fixpoint replace_from (old new s : string) (skip : nat) : string :=
  match s with
  | EmptyString => EmptyString
  | String c rest =>
      match skip with
      | S k => replace_from old new rest k
      | O =>
          if String.prefix old s
          then new +:+ replace_from old new rest (String.length old - 1)
          else String c (replace_from old new rest 0)
      end
  end.
Definition replace (old new s : string) : string := replace_from old new s 0.

Inductive BuilderClass : Type :=
| EnsemblUrlBuilderC
| MainEnsemblUrlBuilderC
| EnsemblProtistsUrlBuilderC
| EnsemblFungiUrlBuilderC.

(** The attributes an [__init__] sets on the instance. *)
Record Builder : Type := mkBuilder {
  class_of : BuilderClass;
  url_root : string;
  assembly : value;
  assembly_version : value;
  species_sub_dir : string;
  filename_species : string;
  taxonomy_id : value;
  scientific_name : string
}.

(** The two requests the builders make. *)
Class Web : Type := {
  (* [requests_retry_session().get(url).json()["release"]] *)
  get_release : string → result value;
  (* [urllib.request.urlopen(url)] returns without raising *)
  urlopen_ok : string → bool
}.

Definition RELEASE_URL : string :=
  "https://rest.ensembl.org/info/software?content-type=application/json".

Section Builders.
Context `{!Web}.

(** [species[key]] *)
Definition getitem (species : gmap string value) (key : string) : result value :=
  match species !! key with
  | Some v => Ok v
  | None => Raise (KeyError key)
  end.

(** a method of [str] called on [v] *)
Definition as_str (v : value) : result string :=
  match v with
  | VStr s => Ok s
  | _ => Raise (OtherError "object has no attribute 'capitalize'")
  end.

Definition rbind {A B} (r : result A) (k : A → result B) : result B :=
  match r with
  | Ok a => k a
  | Raise e => Raise e
  end.

(** [EnsemblUrlBuilder.__init__], run on an instance of class [cls] *)
Definition EnsemblUrlBuilder_init (cls : BuilderClass)
    (species : gmap string value) : result Builder :=
  rbind (getitem species "assembly_name") (λ assembly,
  rbind (get_release RELEASE_URL) (λ assembly_version,
  rbind (getitem species "name") (λ name,
  rbind (as_str name) (λ name,
  rbind (getitem species "taxonomy_id") (λ taxonomy_id,
  let filename_species := capitalize name in
  Ok {| class_of := cls;
        url_root := "ensembl.org/pub/release-{assembly_version}";
        assembly := assembly;
        assembly_version := assembly_version;
        species_sub_dir := name;
        filename_species := filename_species;
        taxonomy_id := taxonomy_id;
        scientific_name := replace "_" " " filename_species |}))))).


(** [MainEnsemblUrlBuilder(species)]: the name [MAIN_RELEASE_URL] is not
    defined in the module, so the constructor cannot finish. *)
Definition MainEnsemblUrlBuilder (species : gmap string value) : result Builder :=
  rbind (getitem species "name") (λ name,
  rbind (as_str name) (λ name,
  rbind (getitem species "assembly") (λ assembly,
  Raise (OtherError "name 'MAIN_RELEASE_URL' is not defined")))).

Definition set_filename_species (f : string) (b : Builder) : Builder :=
  mkBuilder (class_of b) (url_root b) (assembly b) (assembly_version b)
            (species_sub_dir b) f (taxonomy_id b) (scientific_name b).
Definition set_assembly (a : value) (b : Builder) : Builder :=
  mkBuilder (class_of b) (url_root b) a (assembly_version b)
            (species_sub_dir b) (filename_species b) (taxonomy_id b)
            (scientific_name b).

Definition EnsemblProtistsUrlBuilder_init (cls : BuilderClass)
    (species : gmap string value) : result Builder :=
  rbind (EnsemblUrlBuilder_init cls species) (λ self,
  rbind (getitem species "species") (λ sp,
  rbind (as_str sp) (λ sp,
  Ok (set_filename_species (capitalize sp) self)))).

Definition EnsemblProtistsUrlBuilder (species : gmap string value) : result Builder :=
  EnsemblProtistsUrlBuilder_init EnsemblProtistsUrlBuilderC species.

Definition EnsemblFungiUrlBuilder (species : gmap string value) : result Builder :=
  rbind (EnsemblProtistsUrlBuilder_init EnsemblFungiUrlBuilderC species) (λ self,
  match assembly self with
  | VStr "TIGR" => Ok (set_assembly (VStr "CADRE") self)
  | _ => Ok self
  end).


(** [self.url_root.format(assembly_version=self.assembly_version)] *)
Definition format_url_root (self : Builder) : string :=
  replace "{assembly_version}" (str_value (assembly_version self)) (url_root self).

Definition build_gtf_url (self : Builder) : string :=
  "ftp://ftp." +:+ format_url_root self +:+ "/gtf/" +:+ species_sub_dir self
  +:+ "/" +:+ filename_species self +:+ "." +:+ str_value (assembly self)
  +:+ "." +:+ str_value (assembly_version self) +:+ ".gtf.gz".

Definition build_transcriptome_url (self : Builder) : string :=
  let url := "ftp://ftp." +:+ format_url_root self +:+ "/fasta/"
             +:+ species_sub_dir self +:+ "/dna/" +:+ filename_species self
             +:+ "." +:+ str_value (assembly self) +:+ ".dna."
             +:+ "primary_assembly" +:+ ".fa.gz" in
  if urlopen_ok url then url
  else replace "primary_assembly" "toplevel" url.
End Builders.

(** ** Which frames a merge accepts

    A pure reading of the loop of [_inner_join]: a candidate is skipped when
    it repeats a column of the accumulator, rolled back when the join has no
    row, and accepted otherwise; the first frame is the initial accumulator. *)
Section Accepted.
Context {V : Type}.

Inductive outcome : Type := Skipped | RolledBack | Committed.

Definition classify (merged frame : DataFrame V) : outcome :=
  if breaker frame merged then Skipped
  else if bool_decide (len (merge merged frame) = 0) then RolledBack
  else Committed.

Definition step_merged (merged frame : DataFrame V) : DataFrame V :=
  match classify merged frame with
  | Committed => merge merged frame
  | _ => merged
  end.

Fixpoint accepted_from (merged : DataFrame V) (frames : list (DataFrame V))
  : list (DataFrame V) :=
  match frames with
  | [] => []
  | frame :: rest =>
      match classify merged frame with
      | Committed => frame :: accepted_from (merge merged frame) rest
      | _ => accepted_from merged rest
      end
  end.

Definition accepted (frames : list (DataFrame V)) : list (DataFrame V) :=
  match frames with
  | [] => []
  | first :: rest => first :: accepted_from first rest
  end.

(** the locals when the [while] loop is entered *)
Definition loop_entry (first : DataFrame V) : Locals V :=
  mkLocals 1 first (len first) first.
End Accepted.

(** ** Concrete data used by the examples *)

(** a frame with one sample column *)
Definition sample_frame (c : string) (cells : list (string * Z)) : DataFrame Z :=
  mkDataFrame cells.*1 [c] (map (λ r, [r.2]) cells).

Definition a_job : Job.t := Job.mk None None.
Definition a_dataset : Dataset.t :=
  Dataset.mk "ds1" "EXPERIMENT" "NONE" false false None None
             (Some "user@example.org") None None None None true false false.

Definition a_context (frames : list (DataFrame Z)) : JobContext Z :=
  mkJobContext a_job a_dataset None None frames [] 0 None None None None None
               None "/work/" "/out/" None None None None [] [].

Definition frame_ABC : DataFrame Z := sample_frame "s1" [("A", 1); ("B", 2); ("C", 3)]%Z.
Definition frame_BCD : DataFrame Z := sample_frame "s2" [("B", 20); ("C", 30); ("D", 40)]%Z.
Definition frame_AB : DataFrame Z := sample_frame "s3" [("A", 100); ("B", 200)]%Z.
Definition frame_CD : DataFrame Z := sample_frame "s4" [("C", 7); ("D", 8)]%Z.
(** the sample [s1] a second time, with another feature *)
Definition frame_s1_again : DataFrame Z := sample_frame "s1" [("Z", 9)]%Z.
(** a frame whose row label [A] occurs twice *)
Definition frame_AA (c : string) : DataFrame Z := sample_frame c [("A", 1); ("A", 2)]%Z.

(** The collaborators of the examples: each call succeeds, except those whose
    outcome is an argument here.  The stand-in scalers return a matrix of the
    shape they were given. *)
Definition example_externals (cloud : bool) (qn : M Z unit)
    (s3 slack ses : result unit) : Externals Z :=
  {| RUNNING_IN_CLOUD := cloud;
     RESULTS_BUCKET := "refinebio-results-bucket";
     process_frame := λ _ computed_file accession _,
       if bool_decide (filename computed_file = "unreadable.tsv") then None
       else Some (sample_frame accession [("A", 1); ("B", 2)]%Z);
     sync_quant_files := λ _ samples, Ok (length samples);
     first_sample_organism := λ _, Ok "HOMO_SAPIENS";
     quantile_normalize := qn;
     MinMaxScaler := λ m, Ok (map (map (λ _, 0%Z)) m);
     StandardScaler := λ m, Ok (map (map (λ _, 0%Z)) m);
     RobustScaler := λ m, Ok (map (map (λ _, 0%Z)) m);
     makedirs := λ _, Ok tt;
     to_csv := λ _ _, Ok tt;
     write_non_data_files := ret tt;
     make_archive := λ _ _, Ok tt;
     s3_upload_file := λ _ _ _, s3;
     calculate_file_size := λ _, Ok 1024%Z;
     calculate_sha1 := λ _, Ok "da39a3ee5e6b4b0d3255bfef95601890afd80709";
     os_remove := λ _, Ok tt;
     requests_post := λ _ _ _, slack;
     render_error_html := λ url reason, url +:+ " " +:+ reason;
     render_html := λ url, url;
     ses_send_email := λ _ _ _ _, ses |}.

(** a normalisation that finds no target for the samples at hand *)
Definition qn_without_target : M Z unit :=
  λ c, (Raise (OtherError
                 ("No QN target for " +:+
                  default "" (merged_no_qn c ≫= λ m, head (columns m)))), c).

(** a normalisation that returns without having stored [merged_qn] *)
Definition qn_silent : M Z unit := ret tt.

(** a dataset of two experiments to be quantile normalised *)
Definition qn_dataset : Dataset.t :=
  Dataset.mk "ds1" "EXPERIMENT" "NONE" true false None None
             (Some "user@example.org") None None None None true false false.

Definition qn_context : JobContext Z :=
  mkJobContext a_job qn_dataset None
    (Some [("E1", [(mkComputedFile "s1.tsv", mkSample "s1" "HOMO_SAPIENS")]);
           ("E2", [(mkComputedFile "s2.tsv", mkSample "s2" "HOMO_SAPIENS")])])
    [] [] 0 None None None None None None "/work/" "/out/" None None None None
    [] [].

(** a context after a successful smash, ready for upload *)
Definition smashed_context : JobContext Z :=
  mkJobContext (Job.mk None None)
    (Dataset.set_success (Some true) a_dataset) None None [] [] 1 None None None
    None None None "/work/" "/out/"
    (Some "/home/user/data_store/smashed/ds1.zip") None None None [] [].

(** a context whose job has failed, about to be notified *)
Definition failed_context : JobContext Z :=
  mkJobContext (Job.mk (Some false) (Some "Failure reason: boom"))
    (Dataset.set_success (Some false) a_dataset) None None [] [] 0 None None
    None None None None "/work/" "/out/" None None None None [] [].

(** ** Which frames a merge rolls back

    The companion of [accepted_from]: the candidates whose join with the
    accumulator had no row, in the order in which the loop meets them. *)
Section RolledBack.
Context {V : Type}.

Fixpoint rolled_back_from (merged : DataFrame V) (frames : list (DataFrame V))
  : list (DataFrame V) :=
  match frames with
  | [] => []
  | frame :: rest =>
      match classify merged frame with
      | Committed => rolled_back_from (merge merged frame) rest
      | RolledBack => frame :: rolled_back_from merged rest
      | Skipped => rolled_back_from merged rest
      end
  end.
End RolledBack.

(** ** More concrete data for the examples *)

(** a context whose dataset asks for the quant.sf files only *)
Definition quant_sf_context : JobContext Z :=
  mkJobContext a_job
    (Dataset.mk "ds1" "EXPERIMENT" "NONE" false true None None
                (Some "user@example.org") None None None None true false false)
    None None [] [] 0 None None None None None None "/work/" "/out/" None None
    None None [] [].

Definition file_s1 : ComputedFile * Sample :=
  (mkComputedFile "s1.tsv", mkSample "s1" "HOMO_SAPIENS").
Definition file_s2 : ComputedFile * Sample :=
  (mkComputedFile "s2.tsv", mkSample "s2" "HOMO_SAPIENS").
Definition file_unreadable : ComputedFile * Sample :=
  (mkComputedFile "unreadable.tsv", mkSample "s9" "HOMO_SAPIENS").

(** collaborators that all succeed, inside the cloud *)
Definition cloud_externals : Externals Z :=
  example_externals true qn_silent (Ok tt) (Ok tt) (Ok tt).
(** the same collaborators on a developer's machine *)
Definition local_externals : Externals Z :=
  example_externals false qn_silent (Ok tt) (Ok tt) (Ok tt).


(** a transformer that, like the input validation of scikit-learn, refuses a
    matrix without samples or without features; every accepted cell becomes 0 *)
Definition check_array (m : list (list Z)) : result (list (list Z)) :=
  match m with
  | [] => Raise (ValueError "Found array with 0 sample(s) while a minimum of 1 is required.")
  | r :: _ =>
      if bool_decide (r = [])
      then Raise (ValueError "Found array with 0 feature(s) while a minimum of 1 is required.")
      else Ok (map (map (λ _, 0%Z)) m)
  end.

(** collaborators that all succeed, with the given transformer behind each of
    the three scaling methods *)
Definition scaler_externals (transformer : list (list Z) → result (list (list Z)))
  : Externals Z :=
  {| RUNNING_IN_CLOUD := true;
     RESULTS_BUCKET := "refinebio-results-bucket";
     process_frame := λ _ _ _ _, None;
     sync_quant_files := λ _ _, Ok 0;
     first_sample_organism := λ _, Ok "HOMO_SAPIENS";
     quantile_normalize := qn_silent;
     MinMaxScaler := transformer;
     StandardScaler := transformer;
     RobustScaler := transformer;
     makedirs := λ _, Ok tt;
     to_csv := λ _ _, Ok tt;
     write_non_data_files := ret tt;
     make_archive := λ _ _, Ok tt;
     s3_upload_file := λ _ _ _, Ok tt;
     calculate_file_size := λ _, Ok 1024%Z;
     calculate_sha1 := λ _, Ok "da39a3ee5e6b4b0d3255bfef95601890afd80709";
     os_remove := λ _, Ok tt;
     requests_post := λ _ _ _, Ok tt;
     render_error_html := λ url reason, url +:+ " " +:+ reason;
     render_html := λ url, url;
     ses_send_email := λ _ _ _ _, Ok tt |}.

Definition checking_externals : Externals Z := scaler_externals check_array.

(** a normalisation that stores the normalised matrix only while the context
    holds none, and returns without storing anything afterwards *)
Definition qn_first_only : M Z unit :=
  λ c, (Ok tt, match merged_qn c with
               | None => set_merged_qn (merged_no_qn c) c
               | Some _ => c
               end).

(** the context left by [_smash_key] for the first experiment of
    [qn_context] under [qn_first_only] *)
Definition after_first_key : JobContext Z :=
  (@_smash_key Z (example_externals true qn_first_only (Ok tt) (Ok tt) (Ok tt))
     "E1" [(mkComputedFile "s1.tsv", mkSample "s1" "HOMO_SAPIENS")] qn_context).2.

(** * Properties *)

(** ** Inner joins of frames *)
Section FrameFacts.
Context {V : Type}.
Implicit Types (l r : list (string * list V)) (df : DataFrame V).

Lemma join_rows_cons (x : string * list V) l r :
  join_rows (x :: l) r =
  map (λ rr, (x.1, x.2 ++ rr.2)) (filter (λ rr, rr.1 = x.1) r) ++ join_rows l r.
Proof. reflexivity. Qed.

Lemma joined_labels (x : string * list V) (rs : list (string * list V)) :
  (map (λ rr : string * list V, (x.1, x.2 ++ rr.2)) rs).*1 = replicate (length rs) x.1.
Proof. induction rs as [|y rs IH]; simpl; [done | by rewrite <- IH]. Qed.

Lemma join_rows_labels_l l r k : k ∈ (join_rows l r).*1 → k ∈ l.*1.
Proof.
  induction l as [|x l IH]; [simpl; by intros ?%elem_of_nil |].
  rewrite join_rows_cons, fmap_app, joined_labels, fmap_cons, elem_of_app.
  rewrite elem_of_cons.
  intros [Hk | Hk].
  - apply elem_of_replicate in Hk as [-> _]. by left.
  - right. by apply IH.
Qed.

Lemma join_rows_labels_r l r k : k ∈ (join_rows l r).*1 → k ∈ r.*1.
Proof.
  induction l as [|x l IH]; [simpl; by intros ?%elem_of_nil |].
  rewrite join_rows_cons, fmap_app, joined_labels, elem_of_app.
  intros [Hk | Hk]; [| by apply IH].
  apply elem_of_replicate in Hk as [-> Hn].
  destruct (filter (λ rr, rr.1 = x.1) r) as [|y ys] eqn:Hf; [done |].
  assert (y ∈ filter (λ rr : string * list V, rr.1 = x.1) r) as Hy
    by (rewrite Hf; left).
  apply list_elem_of_filter in Hy as [<- Hy].
  by apply list_elem_of_fmap_2.
Qed.

Lemma filter_key_le1 r k :
  NoDup r.*1 → (length (filter (λ rr : string * list V, rr.1 = k) r) ≤ 1)%nat.
Proof.
  induction r as [|y r IH]; [simpl; lia |].
  rewrite fmap_cons. intros [Hy Hr]%NoDup_cons. rewrite filter_cons.
  destruct (decide (y.1 = k)) as [Heq | _]; [| by apply IH].
  destruct (filter (λ rr : string * list V, rr.1 = k) r) as [|z zs] eqn:Hf;
    [simpl; lia |].
  exfalso. apply Hy.
  assert (z ∈ filter (λ rr : string * list V, rr.1 = k) r) as Hz
    by (rewrite Hf; left).
  apply list_elem_of_filter in Hz as [Hzk Hz]. rewrite Heq, <- Hzk.
  by apply list_elem_of_fmap_2.
Qed.

Lemma join_rows_NoDup l r :
  NoDup l.*1 → NoDup r.*1 → NoDup (join_rows l r).*1.
Proof.
  intros Hl Hr. induction l as [|x l IH]; [simpl; constructor |].
  rewrite fmap_cons in Hl. apply NoDup_cons in Hl as [Hx Hl].
  rewrite join_rows_cons, fmap_app, joined_labels.
  pose proof (filter_key_le1 r x.1 Hr) as Hle.
  apply NoDup_app. split_and!.
  - destruct (length (filter (λ rr : string * list V, rr.1 = x.1) r)) as [|[|n]];
      simpl; [constructor | | lia].
    apply NoDup_singleton.
  - intros k [-> _]%elem_of_replicate Hk. apply Hx.
    by eapply join_rows_labels_l.
  - by apply IH.
Qed.

Lemma rows_labels df k : k ∈ (rows df).*1 → k ∈ index df.
Proof.
  unfold rows. generalize (values df). induction (index df) as [|a idx IH];
    intros [|v vs]; simpl; try by intros ?%elem_of_nil.
  rewrite !elem_of_cons. intros [-> | Hk]; [by left | right; eauto].
Qed.

Lemma rows_NoDup df : NoDup (index df) → NoDup (rows df).*1.
Proof.
  unfold rows. generalize (values df). induction (index df) as [|a idx IH];
    intros [|v vs] Hnd; simpl; try constructor.
  - apply NoDup_cons in Hnd as [Ha _]. intros Hin. apply Ha.
    apply (rows_labels (mkDataFrame idx [] vs)), Hin.
  - apply NoDup_cons in Hnd as [_ Hnd]. by apply IH.
Qed.

(** every row label of a merge labels a row of both operands *)
Lemma merge_index_l (a b : DataFrame V) k : k ∈ index (merge a b) → k ∈ index a.
Proof. simpl. intros Hk%join_rows_labels_l. by apply rows_labels. Qed.

Lemma merge_index_r (a b : DataFrame V) k : k ∈ index (merge a b) → k ∈ index b.
Proof. simpl. intros Hk%join_rows_labels_r. by apply rows_labels. Qed.

Lemma merge_NoDup (a b : DataFrame V) :
  NoDup (index a) → NoDup (index b) → NoDup (index (merge a b)).
Proof. intros Ha Hb. simpl. apply join_rows_NoDup; by apply rows_NoDup. Qed.

(** a frame whose labels are distinct and all label rows of [b] has at most
    as many rows as [b] *)
Lemma len_le_of_labels (a b : DataFrame V) :
  NoDup (index a) → (∀ k, k ∈ index a → k ∈ index b) → (len a ≤ len b)%nat.
Proof. intros Hnd Hsub. apply submseteq_length, NoDup_submseteq; done. Qed.

Lemma breaker_true (frame merged : DataFrame V) :
  breaker frame merged = true ↔
  ∃ column, column ∈ columns frame ∧ column ∈ columns merged.
Proof.
  unfold breaker. rewrite existsb_exists. split.
  - intros (c & Hc%list_elem_of_In & Hd%bool_decide_eq_true). eauto.
  - intros (c & Hc & Hd). exists c. split; [by apply list_elem_of_In |].
    by apply bool_decide_eq_true.
Qed.
End FrameFacts.

(** ** The merge loop *)

Ltac run_monad :=
  unfold bind, ret, raise, try_except, get, modify, call, when, log,
    save_dataset; simpl.

Section LoopFacts.
Context {V : Type}.
Implicit Types (l : Locals V) (c : JobContext V) (frame : DataFrame V).
Local Opaque merge Nat.modulo.

(** One pass of the loop from a head state in which the backup is the
    accumulator: it always returns, the accumulator becomes
    [step_merged], and only the log and the unsmashable list change. *)
Lemma loop_body_run frame l c :
  merged_backup l = merged l →
  old_len_merged l = len (merged l) →
  ∃ c', loop_body frame l c =
        (Ok (mkLocals (i l + 1) (step_merged (merged l) frame)
                      (len (step_merged (merged l) frame))
                      (step_merged (merged l) frame)), c') ∧
    job c' = job c ∧ dataset c' = dataset c ∧ all_frames c' = all_frames c ∧
    unsmashable_files c' =
      unsmashable_files c ++
      match classify (merged l) frame with
      | RolledBack => take 1 (columns frame)
      | _ => []
      end.
Proof.
  intros Hb Hn. unfold loop_body, step_merged, classify; cbv zeta.
  rewrite Hb, Hn.
  destruct (bool_decide ((i l + 1) `mod` 1000 = 0));
    destruct (breaker frame (merged l));
    destruct (bool_decide (len (merge (merged l) frame) < len (merged l)));
    destruct (bool_decide (len (merge (merged l) frame) = 0));
    destruct (columns frame) as [|c0 cs];
    run_monad; eexists; (split; [reflexivity |]); simpl;
    by rewrite ?app_nil_r.
Qed.

Lemma while_loop_run frames l c :
  merged_backup l = merged l →
  old_len_merged l = len (merged l) →
  ∃ l' c', while_loop frames l c = (Ok l', c') ∧
    merged l' = fold_left step_merged frames (merged l) ∧
    merged_backup l' = merged l' ∧ old_len_merged l' = len (merged l') ∧
    job c' = job c ∧ dataset c' = dataset c.
Proof.
  revert l c. induction frames as [|frame rest IH]; intros l c Hb Hn.
  - exists l, c. by repeat split.
  - destruct (loop_body_run frame l c Hb Hn) as (c1 & Hrun & Hj & Hd & _).
    simpl. unfold bind at 1. rewrite Hrun.
    set (l1 := mkLocals _ _ _ _).
    destruct (IH l1 c1 eq_refl eq_refl) as (l' & c' & Hw & Hm & Hb' & Hn' & Hj' & Hd').
    exists l', c'. rewrite Hw. repeat split; try done; congruence.
Qed.

(** [_inner_join] returns for every non-empty list of frames. *)
Lemma inner_join_run c first rest :
  all_frames c = first :: rest →
  ∃ c', _inner_join c = (Ok (fold_left step_merged rest first), c') ∧
    job c' = job c ∧ dataset c' = dataset c.
Proof.
  intros Hf. unfold _inner_join. unfold bind at 1, get. rewrite Hf.
  destruct (while_loop_run rest (loop_entry first) c eq_refl eq_refl)
    as (l' & c' & Hw & Hm & _ & _ & Hj & Hd).
  simpl in Hm. exists c'. unfold bind, ret. fold (loop_entry first).
  rewrite Hw, Hm. done.
Qed.

Lemma fold_step_index frames (m : DataFrame V) k :
  k ∈ index (fold_left step_merged frames m) → k ∈ index m.
Proof.
  revert m. induction frames as [|frame rest IH]; intros m; simpl; [done |].
  intros Hk%IH. unfold step_merged in Hk.
  destruct (classify m frame); try done. by eapply merge_index_l.
Qed.

Lemma fold_step_accepted frames (m f : DataFrame V) k :
  f ∈ accepted_from m frames →
  k ∈ index (fold_left step_merged frames m) → k ∈ index f.
Proof.
  revert m. induction frames as [|frame rest IH]; intros m; simpl;
    [by intros ?%elem_of_nil |].
  unfold step_merged. destruct (classify m frame); try apply IH.
  intros [-> | Hf]%elem_of_cons Hk; [| by eapply IH].
  apply fold_step_index in Hk. by eapply merge_index_r.
Qed.

Lemma fold_step_NoDup frames (m : DataFrame V) :
  NoDup (index m) → Forall (λ f, NoDup (index f)) frames →
  NoDup (index (fold_left step_merged frames m)).
Proof.
  revert m. induction frames as [|frame rest IH]; intros m Hm Hfs; simpl; [done |].
  apply Forall_cons in Hfs as [Hf Hfs]. apply IH; [| done].
  unfold step_merged. destruct (classify m frame); try done.
  by apply merge_NoDup.
Qed.
End LoopFacts.

(** ** The Merger: skip, rollback, row sets, order *)
Section MergerClaims.
Context {V : Type}.
Implicit Types (l : Locals V) (c : JobContext V) (frame : DataFrame V).
Local Opaque merge Nat.modulo.

(** C4.  A candidate frame that has a column name already present in the
    accumulator is skipped in full: the pass returns, the accumulator, its
    backup and its recorded length are what they were, and of the context
    only the log changes (it gains the warning), so neither the job nor the
    dataset is marked failed and nothing is recorded as unsmashable. *)
Theorem duplicate_column_leaves_accumulator frame l c :
  (∃ column, column ∈ columns frame ∧ column ∈ columns (merged l)) →
  ∃ l' c', loop_body frame l c = (Ok l', c') ∧
    merged l' = merged l ∧ merged_backup l' = merged_backup l ∧
    old_len_merged l' = old_len_merged l ∧ i l' = i l + 1 ∧
    c' = set_logs (logs c') c ∧
    job c' = job c ∧ dataset c' = dataset c ∧
    unsmashable_files c' = unsmashable_files c ∧
    (WARNING, "Column repeated for smash job!") ∈ logs c'.
Proof.
  intros Hdup%breaker_true. unfold loop_body; cbv zeta. rewrite Hdup.
  destruct (bool_decide ((i l + 1) `mod` 1000 = 0)); run_monad;
    do 2 eexists; (split; [reflexivity |]); simpl;
    repeat split; try done; try (by destruct c);
    apply elem_of_app; right; by apply list_elem_of_singleton.
Qed.

(** C3, amended.  At any head of the loop reached from the first frame, a
    candidate that repeats no column of the accumulator and whose inner join
    with it has no row is rolled back: the pass returns, the accumulator is
    the one from before the pass, and the candidate's first column name is
    appended once to the unsmashable list, or nothing is appended when the
    candidate has no column. *)
Theorem merge_collapse_rolls_back first pre frame c0 l c :
  while_loop pre (loop_entry first) c0 = (Ok l, c) →
  (∀ column, column ∈ columns frame → column ∉ columns (merged l)) →
  len (merge (merged l) frame) = 0 →
  ∃ l' c', loop_body frame l c = (Ok l', c') ∧
    merged l' = merged l ∧ merged_backup l' = merged l ∧
    unsmashable_files c' =
      unsmashable_files c ++
      match columns frame with
      | [] => []
      | lead :: _ => [lead]
      end ∧
    job c' = job c ∧ dataset c' = dataset c.
Proof.
  intros Hreach Hfresh Hzero.
  destruct (while_loop_run pre (loop_entry first) c0 eq_refl eq_refl)
    as (l0 & c1 & Hw & _ & Hb & Hn & _).
  rewrite Hreach in Hw. injection Hw as <- <-.
  destruct (loop_body_run frame l c Hb Hn) as (c' & Hrun & Hj & Hd & _ & Hu).
  assert (classify (merged l) frame = RolledBack) as Hcl.
  { unfold classify.
    destruct (breaker frame (merged l)) eqn:Hbr.
    - apply breaker_true in Hbr as (col & Hc1 & Hc2). by destruct (Hfresh col).
    - by rewrite bool_decide_eq_true_2. }
  unfold step_merged in Hrun. rewrite Hcl in Hrun, Hu.
  do 2 eexists. split; [exact Hrun |]. simpl.
  repeat split; done.
Qed.

(** C5, amended.  For a non-empty list of frames [_inner_join] returns a
    matrix whose every row label is a row label of every accepted frame;
    when no frame has a repeated row label, the matrix has at most as many
    rows as each accepted frame. *)
Theorem merged_rows_within_accepted c first rest :
  all_frames c = first :: rest →
  ∃ merged c', _inner_join c = (Ok merged, c') ∧
    (∀ f k, f ∈ accepted (first :: rest) → k ∈ index merged → k ∈ index f) ∧
    (Forall (λ f, NoDup (index f)) (first :: rest) →
     ∀ f, f ∈ accepted (first :: rest) → (len merged ≤ len f)%nat).
Proof.
  intros Hf. destruct (inner_join_run c first rest Hf) as (c' & Hrun & _).
  exists (fold_left step_merged rest first), c'. split; [done |].
  assert (∀ f k, f ∈ accepted (first :: rest) →
                 k ∈ index (fold_left step_merged rest first) → k ∈ index f) as Hsub.
  { intros f k [-> | Hacc]%elem_of_cons Hk.
    - by eapply fold_step_index.
    - by eapply fold_step_accepted. }
  split; [done |].
  intros [Hfirst Hrest]%Forall_cons f Hacc.
  apply len_le_of_labels; [by apply fold_step_NoDup | eauto].
Qed.
End MergerClaims.

Lemma duplicate_column_leaves_accumulator_witness :
  ∃ l' c',
    loop_body frame_s1_again (loop_entry frame_ABC)
              (a_context [frame_ABC; frame_s1_again]) = (Ok l', c') ∧
    merged l' = frame_ABC ∧ unsmashable_files c' = [] ∧ job c' = a_job.
Proof.
  destruct (duplicate_column_leaves_accumulator frame_s1_again
              (loop_entry frame_ABC) (a_context [frame_ABC; frame_s1_again]))
    as (l' & c' & Hrun & Hm & _ & _ & _ & _ & Hj & _ & Hu & _).
  - exists "s1". split.
    + change ("s1" ∈ ["s1"]). by left.
    + change ("s1" ∈ ["s1"]). by left.
  - exists l', c'. repeat split; assumption.
Defined.

(** C3 as stated fails: the inner join of the accumulator [frame_ABC] with
    [frame_s1_again] has no row and the candidate's first column can be
    read, yet after the pass the unsmashable list is still empty, because the
    candidate repeats the column [s1] and is skipped before any join. *)
Lemma rollback_not_recorded_for_repeated_column :
  len (merge frame_ABC frame_s1_again) = 0 ∧
  head (columns frame_s1_again) = Some "s1" ∧
  unsmashable_files (a_context [frame_ABC; frame_s1_again]) = [] ∧
  ∃ l', loop_body frame_s1_again (loop_entry frame_ABC)
                  (a_context [frame_ABC; frame_s1_again])
        = (Ok l', set_logs [(WARNING, "Column repeated for smash job!")]
                    (a_context [frame_ABC; frame_s1_again])) ∧
        merged l' = frame_ABC.
Proof. repeat split. eexists. split; vm_compute; reflexivity. Qed.

Lemma merge_collapse_rolls_back_witness :
  ∃ l' c',
    loop_body frame_CD (loop_entry frame_AB) (a_context [frame_AB; frame_CD])
      = (Ok l', c') ∧
    merged l' = frame_AB ∧ unsmashable_files c' = ["s4"].
Proof.
  destruct (merge_collapse_rolls_back frame_AB [] frame_CD
              (a_context [frame_AB; frame_CD]) (loop_entry frame_AB)
              (a_context [frame_AB; frame_CD]))
    as (l' & c' & Hrun & Hm & _ & Hu & _).
  - reflexivity.
  - intros column Hc Hin.
    change (column ∈ ["s4"]) in Hc. change (column ∈ ["s3"]) in Hin.
    apply list_elem_of_singleton in Hc, Hin. congruence.
  - reflexivity.
  - exists l', c'. repeat split; assumption.
Defined.

(** C5 as stated fails on the row count: two frames that both carry the row
    label [A] twice are both accepted, and their merge has four rows, more
    than the two rows of either frame. *)
Lemma merged_rows_exceed_accepted :
  accepted [frame_AA "s1"; frame_AA "s2"] = [frame_AA "s1"; frame_AA "s2"] ∧
  len (frame_AA "s1") = 2 ∧ len (frame_AA "s2") = 2 ∧
  ∃ merged, (_inner_join (a_context [frame_AA "s1"; frame_AA "s2"])).1 = Ok merged ∧
            len merged = 4 ∧ index merged = ["A"; "A"; "A"; "A"].
Proof. repeat split. eexists. split; [vm_compute; reflexivity |]. by split. Qed.

Lemma merged_rows_within_accepted_witness :
  ∃ merged c',
    _inner_join (a_context [frame_ABC; frame_BCD; frame_AB]) = (Ok merged, c') ∧
    (∀ k, k ∈ index merged → k ∈ index frame_BCD) ∧
    (len merged ≤ len frame_AB)%nat.
Proof.
  destruct (merged_rows_within_accepted
              (a_context [frame_ABC; frame_BCD; frame_AB])
              frame_ABC [frame_BCD; frame_AB] eq_refl)
    as (merged & c' & Hrun & Hsub & Hlen).
  exists merged, c'. split; [exact Hrun |]. split.
  - intros k. apply Hsub.
    change (frame_BCD ∈ [frame_ABC; frame_BCD; frame_AB]). by right; left.
  - apply Hlen.
    + repeat constructor; simpl; intros Hin%list_elem_of_In; simpl in Hin;
        intuition discriminate.
    + change (frame_AB ∈ [frame_ABC; frame_BCD; frame_AB]). by right; right; left.
Defined.

(** C7.  The result of the Merger depends on the order of its input: there is
    a list whose second frame is skipped for a repeated column, and a list
    whose second frame is rolled back for an empty join, and in both cases
    swapping the two frames changes the matrix that [_inner_join] returns. *)
Theorem merge_depends_on_order :
  (∃ frames frames' : list (DataFrame Z),
     frames ≡ₚ frames' ∧
     classify frame_ABC frame_s1_again = Skipped ∧
     frames = [frame_ABC; frame_s1_again] ∧
     (_inner_join (a_context frames)).1 ≠ (_inner_join (a_context frames')).1) ∧
  (∃ frames frames' : list (DataFrame Z),
     frames ≡ₚ frames' ∧
     classify frame_AB frame_CD = RolledBack ∧
     frames = [frame_AB; frame_CD] ∧
     (_inner_join (a_context frames)).1 ≠ (_inner_join (a_context frames')).1).
Proof.
  split.
  - exists [frame_ABC; frame_s1_again], [frame_s1_again; frame_ABC].
    split; [apply Permutation_swap |]. repeat split. vm_compute. discriminate.
  - exists [frame_AB; frame_CD], [frame_CD; frame_AB].
    split; [apply Permutation_swap |]. repeat split. vm_compute. discriminate.
Qed.

(** ** Transposition and the scaler *)
Section TransposeFacts.
Context {V : Type}.
Implicit Types (vs : list (list V)) (df : DataFrame V).

Lemma omap_Forall2 {A B} (f : A → option B) (l : list A) (l' : list B) :
  Forall2 (λ x y, f x = Some y) l l' → omap f l = l'.
Proof.
  induction 1 as [|x y l l' Hxy _ IH]; [done |].
  cbn. rewrite Hxy. f_equal. exact IH.
Qed.

(** column [j] of a matrix whose rows all reach past [j] *)
Lemma column_Forall2 vs j :
  Forall (λ r, j < length r) vs →
  Forall2 (λ r y, r !! j = Some y) vs (omap (λ r, r !! j) vs).
Proof.
  induction 1 as [|r vs Hr _ IH]; simpl; [constructor |].
  destruct (lookup_lt_is_Some_2 r j Hr) as [y Hy]. rewrite Hy. by constructor.
Qed.

Lemma transpose_values_lookup ncols vs j :
  j < ncols → transpose_values ncols vs !! j = Some (omap (λ r, r !! j) vs).
Proof.
  intros Hj. unfold transpose_values.
  by rewrite list_lookup_fmap, lookup_seq_lt.
Qed.

Lemma transpose_values_length ncols vs : length (transpose_values ncols vs) = ncols.
Proof. unfold transpose_values. by rewrite length_map, length_seq. Qed.

Lemma transpose_values_rows nrows ncols vs :
  length vs = nrows → Forall (λ r, length r = ncols) vs →
  Forall (λ r, length r = nrows) (transpose_values ncols vs).
Proof.
  intros Hn Hc. apply Forall_lookup. intros j t Ht.
  assert (j < ncols) as Hj.
  { apply lookup_lt_Some in Ht. by rewrite transpose_values_length in Ht. }
  rewrite transpose_values_lookup in Ht by done. injection Ht as <-.
  rewrite <- Hn. symmetry. eapply Forall2_length, column_Forall2.
  eapply Forall_impl; [exact Hc |]. simpl. intros r ->. done.
Qed.

Lemma transpose_values_involutive nrows ncols vs :
  length vs = nrows → Forall (λ r, length r = ncols) vs →
  transpose_values nrows (transpose_values ncols vs) = vs.
Proof.
  intros Hn Hc. apply list_eq. intros i.
  destruct (decide (i < nrows)) as [Hi | Hi].
  - rewrite transpose_values_lookup by done.
    destruct (lookup_lt_is_Some_2 vs i) as [r Hr]; [lia |]. rewrite Hr. f_equal.
    apply omap_Forall2, Forall2_same_length_lookup. split.
    + rewrite transpose_values_length. symmetry.
      apply (Forall_lookup_1 _ _ _ _ Hc Hr).
    + intros j t y Ht Hy.
      assert (j < ncols) as Hj.
      { apply lookup_lt_Some in Ht. by rewrite transpose_values_length in Ht. }
      rewrite transpose_values_lookup in Ht by done. injection Ht as <-.
      assert (Forall (λ r, j < length r) vs) as Hreach.
      { eapply Forall_impl; [exact Hc |]. simpl. intros r' ->. done. }
      destruct (Forall2_lookup_l _ _ _ _ _ (column_Forall2 vs j Hreach) Hr)
        as (y' & Hy' & Hry').
      congruence.
  - rewrite !lookup_ge_None_2; [done | lia |].
    rewrite transpose_values_length. lia.
Qed.

(** the transpose of a rectangular frame is rectangular *)
Lemma wf_transpose df : wf df → wf (transpose df).
Proof.
  intros [Hn Hc]. split; simpl.
  - apply transpose_values_length.
  - by apply transpose_values_rows.
Qed.

(** [df.transpose().transpose()] is [df] *)
Lemma transpose_involutive df : wf df → transpose (transpose df) = df.
Proof.
  intros [Hn Hc]. destruct df as [idx cols vs]. unfold transpose; simpl in *.
  f_equal. by apply transpose_values_involutive.
Qed.

Lemma shape_ok_wf (data : list (list V)) idx cols :
  shape_ok (length idx) (length cols) data = true ↔ wf (mkDataFrame idx cols data).
Proof.
  unfold shape_ok, wf; simpl. rewrite andb_true_iff, bool_decide_eq_true.
  rewrite forallb_forall, Forall_forall.
  split; intros [Hn Hc]; (split; [done |]); intros r Hr.
  - apply list_elem_of_In, Hc in Hr. by apply bool_decide_eq_true in Hr.
  - apply bool_decide_eq_true, Hc. by apply list_elem_of_In.
Qed.

Lemma wf_same_shape df (data : list (list V)) :
  wf df → same_shape (values df) data →
  wf (mkDataFrame (index df) (columns df) data).
Proof.
  intros [Hn Hc] Hs. split; simpl.
  - rewrite <- Hn. symmetry. by eapply Forall2_length.
  - unfold same_shape in Hs. clear Hn.
    induction Hs as [|r r' vs vs' Hr _ IH]; [constructor |].
    apply Forall_cons in Hc as [Hc1 Hc2]. constructor; [congruence | by apply IH].
Qed.

Lemma wf_same_shape_inv df (data : list (list V)) :
  wf df → wf (mkDataFrame (index df) (columns df) data) →
  same_shape (values df) data.
Proof.
  intros [Hn Hc] [Hn' Hc']. simpl in *.
  apply Forall2_same_length_lookup. split; [congruence |].
  intros i r r' Hr Hr'.
  rewrite (Forall_lookup_1 _ _ _ _ Hc Hr), (Forall_lookup_1 _ _ _ _ Hc' Hr').
  done.
Qed.
End TransposeFacts.

Section ScalerClaims.
Context {V : Type} `{!Externals V}.

(** the dict [SCALERS] has the three keys MINMAX, STANDARD and ROBUST *)
Lemma SCALERS_keys name :
  is_Some (SCALERS name) ↔ name ∈ ["MINMAX"; "STANDARD"; "ROBUST"].
Proof.
  unfold SCALERS. rewrite !elem_of_cons, elem_of_nil.
  repeat case_bool_decide; subst; split; intros Hk; eauto; try tauto.
  by destruct Hk as [? [=]].
Qed.

(** C8, amended.  On a rectangular merged matrix the scaler with
    [scale_by = "NONE"] returns its input unchanged.  With a method of
    [SCALERS] there is an output exactly when the transformer accepts the
    transposed matrix and returns a matrix of the same shape: the output then
    has the row labels and the column labels of the input and is rectangular
    with respect to them, and only the cells are the transformer's.  When the
    transformer refuses the matrix, its exception leaves the scaler and there
    is no output; were it to return a matrix of another shape, building the
    scaled frame would raise [ValueError]. *)
Theorem scaler_keeps_labels merged :
  wf merged →
  scale "NONE" merged = Ok merged ∧
  (∀ scale_by scale_funtion data,
     SCALERS scale_by = Some scale_funtion →
     scale_funtion (values (transpose merged)) = Ok data →
     same_shape (values (transpose merged)) data →
     ∃ out, scale scale_by merged = Ok out ∧
            index out = index merged ∧ columns out = columns merged ∧
            wf out ∧ len out = len merged ∧
            values out = transpose_values (length (index merged)) data) ∧
  (∀ scale_by scale_funtion e,
     SCALERS scale_by = Some scale_funtion →
     scale_funtion (values (transpose merged)) = Raise e →
     scale scale_by merged = Raise e) ∧
  (∀ scale_by scale_funtion data,
     SCALERS scale_by = Some scale_funtion →
     scale_funtion (values (transpose merged)) = Ok data →
     ¬ same_shape (values (transpose merged)) data →
     scale scale_by merged =
       Raise (ValueError "Shape of passed values does not match the labels")).
Proof.
  intros Hwf.
  assert (∀ scale_by f, SCALERS scale_by = Some f → scale_by ≠ "NONE") as Hne.
  { intros scale_by f Hf ->. by vm_compute in Hf. }
  split_and!.
  - unfold scale. rewrite bool_decide_eq_false_2 by (by intros []).
    by rewrite transpose_involutive.
  - intros scale_by f data Hf Hdata Hshape. unfold scale.
    rewrite bool_decide_eq_true_2, Hf, Hdata by eauto.
    pose proof (wf_same_shape _ _ (wf_transpose _ Hwf) Hshape) as Hwf'.
    unfold DataFrame_of. rewrite (proj2 (shape_ok_wf _ _ _) Hwf').
    eexists. split; [reflexivity |]. split_and!; try done.
    by apply (wf_transpose _ Hwf').
  - intros scale_by f e Hf Hraise. unfold scale.
    by rewrite bool_decide_eq_true_2, Hf, Hraise by eauto.
  - intros scale_by f data Hf Hdata Hshape. unfold scale.
    rewrite bool_decide_eq_true_2, Hf, Hdata by eauto.
    unfold DataFrame_of.
    destruct (shape_ok _ _ data) eqn:Hok; [| done].
    destruct Hshape. apply shape_ok_wf in Hok.
    by apply (wf_same_shape_inv (transpose merged)); [apply wf_transpose |].
Qed.
End ScalerClaims.

Lemma scaler_keeps_labels_witness :
  @scale Z (example_externals true qn_silent (Ok tt) (Ok tt) (Ok tt)) "NONE" frame_ABC
    = Ok frame_ABC ∧
  (∃ out,
     @scale Z (example_externals true qn_silent (Ok tt) (Ok tt) (Ok tt)) "MINMAX" frame_ABC
       = Ok out ∧
     index out = ["A"; "B"; "C"] ∧ columns out = ["s1"] ∧
     values out = [[0]; [0]; [0]]%Z) ∧
  @scale Z checking_externals "STANDARD" (sample_frame "s1" [])
    = Raise (ValueError "Found array with 0 feature(s) while a minimum of 1 is required.") ∧
  @scale Z (scaler_externals (λ _, Ok [])) "ROBUST" frame_ABC
    = Raise (ValueError "Shape of passed values does not match the labels").
Proof.
  split_and!.
  - destruct (@scaler_keeps_labels Z
                (example_externals true qn_silent (Ok tt) (Ok tt) (Ok tt)) frame_ABC)
      as [Hnone _]; [| exact Hnone].
    split; [reflexivity |]. repeat constructor.
  - destruct (@scaler_keeps_labels Z
                (example_externals true qn_silent (Ok tt) (Ok tt) (Ok tt)) frame_ABC)
      as (_ & Hscaled & _).
    + split; [reflexivity |]. repeat constructor.
    + destruct (Hscaled "MINMAX" (λ m, Ok (map (map (λ _, 0%Z)) m)) [[0; 0; 0]]%Z)
        as (out & Hrun & Hi & Hc & _ & _ & Hv).
      * reflexivity.
      * reflexivity.
      * repeat constructor.
      * exists out. split; [exact Hrun |]. rewrite Hi, Hc, Hv. by repeat split.
  - destruct (@scaler_keeps_labels Z checking_externals (sample_frame "s1" []))
      as (_ & _ & Hraise & _); [by split |].
    by apply (Hraise "STANDARD" check_array).
  - destruct (@scaler_keeps_labels Z (scaler_externals (λ _, Ok [])) frame_ABC)
      as (_ & _ & _ & Hshape).
    + split; [reflexivity |]. repeat constructor.
    + apply (Hshape "ROBUST" (λ _, Ok []) []); [reflexivity | reflexivity |].
      intros Hsame. apply Forall2_length in Hsame. discriminate Hsame.
Defined.

(** C8 as stated fails: the Merger returns a matrix without rows when the
    first frame has none, and for that matrix the transformer (which needs at
    least one sample and one feature) raises, so the scaler with MINMAX
    raises too and produces no output. *)
Lemma scaler_refuses_matrix_without_rows :
  wf (sample_frame "s1" []) ∧
  (_inner_join (a_context [sample_frame "s1" []; frame_BCD])).1
    = Ok (sample_frame "s1" []) ∧
  @scale Z checking_externals "MINMAX" (sample_frame "s1" [])
    = Raise (ValueError "Found array with 0 feature(s) while a minimum of 1 is required.").
Proof. split; [by split |]. split; vm_compute; reflexivity. Qed.

(** ** Loading frames, smashing one key *)
Section SmashFacts.
Context {V : Type} `{!Externals V}.
Implicit Types (c : JobContext V) (files : list (ComputedFile * Sample)).
Local Opaque merge Nat.modulo.

(** [load_frames] always returns.  The frames that could be read are
    appended, in the order of the files, to [all_frames]; the file name of
    each file that could not is appended to the unsmashable list, with one
    warning each; nothing else of the context changes. *)
Lemma load_frames_run files c :
  load_frames files c =
  (Ok tt,
   set_logs
     (logs c ++
      ((λ _, (WARNING, "Unable to smash file")) <$>
       filter (λ fs, process_frame (work_dir c) fs.1 (accession_code fs.2)
                       (Dataset.aggregate_by (dataset c)) = None) files))
     (set_unsmashable_files
        (unsmashable_files c ++
         ((λ fs, filename fs.1) <$>
          filter (λ fs, process_frame (work_dir c) fs.1 (accession_code fs.2)
                          (Dataset.aggregate_by (dataset c)) = None) files))
        (set_all_frames
           (all_frames c ++
            omap (λ fs, process_frame (work_dir c) fs.1 (accession_code fs.2)
                          (Dataset.aggregate_by (dataset c))) files)
           c))).
Proof.
  revert c. induction files as [|[computed_file sample] files IH]; intros c.
  - destruct c; simpl. unfold ret. by rewrite !app_nil_r.
  - cbn [load_frames]. unfold bind at 1 2 3, get. cbn [omap list_omap].
    rewrite filter_cons. cbn [fst snd].
    destruct (process_frame (work_dir c) computed_file (accession_code sample)
                (Dataset.aggregate_by (dataset c))) as [frame|] eqn:Hp.
    + rewrite decide_False by done.
      unfold modify at 1. rewrite IH. destruct c; simpl.
      by rewrite <- !app_assoc.
    + rewrite decide_True by done.
      unfold bind at 1, log, modify at 1 2. rewrite IH. destruct c; simpl.
      by rewrite <- !app_assoc.
Qed.

Lemma process_frames_for_key_run key files c :
  ∃ c1, process_frames_for_key key files c = (Ok tt, c1) ∧
    job c1 = job c ∧ dataset c1 = dataset c ∧ db c1 = db c ∧
    work_dir c1 = work_dir c ∧ output_dir c1 = output_dir c ∧
    num_samples c1 = num_samples c ∧
    original_merged c1 = Some empty_frame ∧
    all_frames c1 =
      omap (λ fs, process_frame (work_dir c) fs.1 (accession_code fs.2)
                    (Dataset.aggregate_by (dataset c))) files ∧
    unsmashable_files c1 =
      unsmashable_files c ++
      ((λ fs, filename fs.1) <$>
       filter (λ fs, process_frame (work_dir c) fs.1 (accession_code fs.2)
                       (Dataset.aggregate_by (dataset c)) = None) files).
Proof.
  unfold process_frames_for_key, bind, modify. rewrite load_frames_run.
  eexists. split; [reflexivity |]. by destruct c.
Qed.

(** [_inner_join] returns only for a non-empty list of frames, and leaves
    the job and the dataset alone. *)
Lemma inner_join_Ok c merged c' :
  _inner_join c = (Ok merged, c') →
  all_frames c ≠ [] ∧ job c' = job c ∧ dataset c' = dataset c.
Proof.
  intros Hrun. destruct (all_frames c) as [|first rest] eqn:Hf.
  - unfold _inner_join, bind, get in Hrun. by rewrite Hf in Hrun.
  - destruct (inner_join_run c first rest Hf) as (c2 & Hrun2 & Hj & Hd).
    rewrite Hrun in Hrun2. by injection Hrun2 as _ ->.
Qed.
End SmashFacts.

(** ** Quantile normalisation failures *)
Section NormalizeClaims.
Context {V : Type} `{!Externals V}.
Implicit Types (c : JobContext V) (files : list (ComputedFile * Sample)).
Local Opaque merge Nat.modulo.

(** What the handler of the normalisation block does with an exception. *)
Lemma normalize_except_run e c :
  ∃ c', normalize_except e c = (Ok None, c') ∧
    Dataset.success (dataset c') = Some false ∧
    Job.success (job c') = Some false ∧
    ctx_failure_reason c' = Some (str_exn e) ∧
    db c' = db c ++ [dataset c'] ∧
    (if falsy (Job.failure_reason (job c))
     then Job.failure_reason (job c') = Some ("Failure reason: " +:+ str_exn e) ∧
          Dataset.failure_reason (dataset c') =
            Some ("Failure reason: " +:+ str_exn e)
     else Job.failure_reason (job c') = Job.failure_reason (job c) ∧
          Dataset.failure_reason (dataset c') = Dataset.failure_reason (dataset c)) ∧
    final_frame c' = final_frame c ∧ smash_outfile c' = smash_outfile c ∧
    output_file c' = output_file c.
Proof.
  unfold normalize_except. run_monad.
  destruct (falsy (Job.failure_reason (job c))) eqn:Hf; simpl;
    eexists; (split; [reflexivity |]); simpl; rewrite ?Hf; by repeat split.
Qed.

(** The body of the [try], outcome by outcome: the organism lookup, then the
    normalisation, then the look at [merged_qn]. *)
Lemma normalize_try_run merged c :
  normalize_try merged c =
    match first_sample_organism (dataset c) with
    | Raise e => (Raise e, set_merged_no_qn (Some merged) c)
    | Ok o =>
        match quantile_normalize
                (set_organism (Some o) (set_merged_no_qn (Some merged) c)) with
        | (Raise e, c3) => (Raise e, c3)
        | (Ok _, c3) =>
            match merged_qn c3 with
            | Some m => (Ok (Some m), c3)
            | None =>
                (Raise (AssertionError
                   "Problem occured during quantile normalization: No merged_qn"), c3)
            end
        end
    end.
Proof.
  unfold normalize_try. run_monad.
  destruct (first_sample_organism (dataset c)) as [o | e]; [| done].
  destruct (quantile_normalize _) as [[[] | e] c3]; [| done].
  by destruct (merged_qn c3).
Qed.

(** [_smash_key] up to the normalisation block, when the frames of the key
    merge and quantile normalisation is requested. *)
Lemma smash_key_reaches_block key files c c1 merged c2 :
  Dataset.quant_sf_only (dataset c) = false →
  Dataset.quantile_normalize (dataset c) = true →
  process_frames_for_key key files c = (Ok tt, c1) →
  _inner_join c1 = (Ok merged, c2) →
  _smash_key key files c =
    match normalize_block merged (set_original_merged (Some merged) c2) with
    | (Raise e, c3) => (Raise e, c3)
    | (Ok None, c3) => (Ok tt, c3)
    | (Ok (Some m), c3) =>
        match scale (Dataset.scale_by (dataset c3)) m with
        | Raise e => (Raise e, c3)
        | Ok untransposed =>
            match makedirs (output_dir c3 +:+ key +:+ "/") with
            | Raise e => (Raise e, set_final_frame (Some untransposed) c3)
            | Ok _ =>
                (to_csv untransposed
                   ((output_dir c3 +:+ key +:+ "/") +:+ key +:+ ".tsv"),
                 set_smash_outfile
                   (Some ((output_dir c3 +:+ key +:+ "/") +:+ key +:+ ".tsv"))
                   (set_final_frame (Some untransposed) c3))
            end
        end
    end.
Proof.
  intros Hsf Hqn Hload Hjoin.
  destruct (process_frames_for_key_run key files c)
    as (c1' & Hload' & _ & Hd1 & _).
  rewrite Hload in Hload'. injection Hload' as <-.
  destruct (inner_join_Ok _ _ _ Hjoin) as (Hne & _ & Hd2).
  unfold _smash_key. unfold bind at 1, get at 1. rewrite Hsf.
  unfold bind at 1. rewrite Hload. unfold bind at 1, get at 1.
  rewrite bool_decide_eq_false_2
    by (destruct (all_frames c1); [done | simpl; lia]).
  unfold bind at 1. rewrite Hjoin.
  unfold bind at 1, modify at 1. unfold bind at 1, get at 1.
  replace (Dataset.quantile_normalize
             (dataset (set_original_merged (Some merged) c2))) with true
    by (destruct c2; simpl in *; congruence).
  unfold bind at 1.
  destruct (normalize_block _ _) as [[[m |] | e] c3]; [| done | done].
  unfold bind at 1, get at 1. unfold bind at 1, call at 1.
  destruct (scale _ m) as [untransposed | e]; [| done].
  unfold bind at 1, modify at 1. unfold bind at 1, get at 1.
  unfold bind at 1, call at 1.
  replace (output_dir (set_final_frame (Some untransposed) c3))
    with (output_dir c3) by (by destruct c3).
  destruct (makedirs _) as [[] | e]; [| done].
  unfold bind at 1, modify at 1. unfold call. done.
Qed.

(** C6, amended.  Quantile normalisation is requested for a key whose frames
    merge.  The normalisation fails with [e] exactly when the organism lookup
    raises [e], or the normalisation itself raises [e], or it returns and the
    context then holds no [merged_qn] ([e] is then the assertion error).
    On every such failure [_smash_key] returns normally with the dataset and
    the job marked failed, the text of [e] stored under the context's
    [failure_reason], and the dataset saved at once; nothing is scaled or
    written.  The job's and the dataset's [failure_reason] receive the text
    of [e] only if the job had no failure reason yet: otherwise both keep
    their earlier value.  A normalisation that returns while the context
    holds a [merged_qn], whichever call stored it, is no failure: nothing is
    marked or saved, and that matrix is the one scaled and written. *)
Theorem failed_normalization_fails_job key files c c1 merged c2 :
  Dataset.quant_sf_only (dataset c) = false →
  Dataset.quantile_normalize (dataset c) = true →
  process_frames_for_key key files c = (Ok tt, c1) →
  _inner_join c1 = (Ok merged, c2) →
  let entry := set_original_merged (Some merged) c2 in
  (∀ e c3,
     normalize_try merged entry = (Raise e, c3) ↔
       (first_sample_organism (dataset c2) = Raise e ∧
        c3 = set_merged_no_qn (Some merged) entry) ∨
       (∃ o, first_sample_organism (dataset c2) = Ok o ∧
          (quantile_normalize
             (set_organism (Some o) (set_merged_no_qn (Some merged) entry))
             = (Raise e, c3) ∨
           (quantile_normalize
              (set_organism (Some o) (set_merged_no_qn (Some merged) entry))
              = (Ok tt, c3) ∧
            merged_qn c3 = None ∧
            e = AssertionError
                  "Problem occured during quantile normalization: No merged_qn")))) ∧
  (∀ e c3,
     normalize_try merged entry = (Raise e, c3) →
     ∃ c', _smash_key key files c = (Ok tt, c') ∧
       Dataset.success (dataset c') = Some false ∧
       Job.success (job c') = Some false ∧
       ctx_failure_reason c' = Some (str_exn e) ∧
       db c' = db c3 ++ [dataset c'] ∧
       (if falsy (Job.failure_reason (job c3))
        then Job.failure_reason (job c') = Some ("Failure reason: " +:+ str_exn e) ∧
             Dataset.failure_reason (dataset c') =
               Some ("Failure reason: " +:+ str_exn e)
        else Job.failure_reason (job c') = Job.failure_reason (job c3) ∧
             Dataset.failure_reason (dataset c') = Dataset.failure_reason (dataset c3)) ∧
       final_frame c' = final_frame c3 ∧ smash_outfile c' = smash_outfile c3) ∧
  (∀ o c3 m untransposed,
     first_sample_organism (dataset c2) = Ok o →
     quantile_normalize
       (set_organism (Some o) (set_merged_no_qn (Some merged) entry))
       = (Ok tt, c3) →
     merged_qn c3 = Some m →
     scale (Dataset.scale_by (dataset c3)) m = Ok untransposed →
     makedirs (output_dir c3 +:+ key +:+ "/") = Ok tt →
     to_csv untransposed ((output_dir c3 +:+ key +:+ "/") +:+ key +:+ ".tsv")
       = Ok tt →
     _smash_key key files c =
       (Ok tt,
        set_smash_outfile
          (Some ((output_dir c3 +:+ key +:+ "/") +:+ key +:+ ".tsv"))
          (set_final_frame (Some untransposed) c3))).
Proof.
  intros Hsf Hqn Hload Hjoin entry.
  pose proof (smash_key_reaches_block _ _ _ _ _ _ Hsf Hqn Hload Hjoin) as Hkey.
  fold entry in Hkey.
  assert (dataset entry = dataset c2) as Hds by (by destruct c2).
  pose proof (normalize_try_run merged entry) as Htry. rewrite Hds in Htry.
  split_and!.
  - intros e c3. rewrite Htry.
    destruct (first_sample_organism (dataset c2)) as [o | e0];
      [destruct (quantile_normalize _) as [[[] | e1] c4] eqn:Hrun;
         [destruct (merged_qn c4) as [m |] eqn:Hm |] |];
      (split;
       [ intros Heq; simplify_eq; eauto 10
       | intros [[Ho' Hc] | (o' & Ho' & [Hr | (Hr & Hn & He)])];
         simplify_eq; try (rewrite Hrun in Hr; simplify_eq); congruence ]).
  - intros e c3 Hfail.
    destruct (normalize_except_run e c3)
      as (c' & Hexc & Hdset & Hjs & Hcr & Hdb & Hreason & Hff & Hso & _).
    exists c'. split; [| by repeat split].
    rewrite Hkey. unfold normalize_block, try_except. by rewrite Hfail, Hexc.
  - intros o c3 m untransposed Ho Hrun Hm Hscale Hmk Hcsv.
    rewrite Hkey. unfold normalize_block, try_except.
    rewrite Htry, Ho, Hrun, Hm, Hscale, Hmk, Hcsv. done.
Qed.
End NormalizeClaims.

Lemma failed_normalization_fails_job_witness :
  (∃ c',
     @_smash_key Z (example_externals true qn_silent (Ok tt) (Ok tt) (Ok tt))
       "E1" [(mkComputedFile "s1.tsv", mkSample "s1" "HOMO_SAPIENS")] qn_context
     = (Ok tt, c') ∧
     Dataset.success (dataset c') = Some false ∧
     Job.success (job c') = Some false ∧
     Job.failure_reason (job c') =
       Some "Failure reason: Problem occured during quantile normalization: No merged_qn" ∧
     db c' = [dataset c'] ∧ final_frame c' = None) ∧
  (∃ c',
     @_smash_key Z (example_externals true qn_first_only (Ok tt) (Ok tt) (Ok tt))
       "E2" [(mkComputedFile "s2.tsv", mkSample "s2" "HOMO_SAPIENS")] after_first_key
     = (Ok tt, c') ∧
     original_merged c' = Some (sample_frame "s2" [("A", 1); ("B", 2)]%Z) ∧
     final_frame c' = Some (sample_frame "s1" [("A", 1); ("B", 2)]%Z) ∧
     smash_outfile c' = Some "/out/E2/E2.tsv" ∧
     Job.success (job c') = None ∧ Dataset.success (dataset c') = None ∧
     db c' = []).
Proof.
  split.
  - edestruct (@failed_normalization_fails_job Z
                 (example_externals true qn_silent (Ok tt) (Ok tt) (Ok tt))
                 "E1" [(mkComputedFile "s1.tsv", mkSample "s1" "HOMO_SAPIENS")]
                 qn_context)
      as (_ & Hfail & _).
    + reflexivity.
    + reflexivity.
    + vm_compute. reflexivity.
    + vm_compute. reflexivity.
    + edestruct Hfail as (c' & Hrun & Hds & Hjs & _ & Hdb & Hreason & Hff & _).
      * vm_compute. reflexivity.
      * exists c'. split; [exact Hrun |]. simpl in Hreason.
        destruct Hreason as [Hjr _]. repeat split; assumption.
  - edestruct (@failed_normalization_fails_job Z
                 (example_externals true qn_first_only (Ok tt) (Ok tt) (Ok tt))
                 "E2" [(mkComputedFile "s2.tsv", mkSample "s2" "HOMO_SAPIENS")]
                 after_first_key)
      as (_ & _ & Hstale).
    + vm_compute. reflexivity.
    + vm_compute. reflexivity.
    + vm_compute. reflexivity.
    + vm_compute. reflexivity.
    + eexists. split.
      * eapply (Hstale "HOMO_SAPIENS").
        -- reflexivity.
        -- vm_compute. reflexivity.
        -- reflexivity.
        -- vm_compute. reflexivity.
        -- reflexivity.
        -- reflexivity.
      * vm_compute. repeat split.
Defined.

(** C6 as stated fails: in a run over two keys whose normalisation both
    fail, [_smash_key] for the second key returns with the detail of its own
    failure under the context's [failure_reason] only; the job's and the
    dataset's [failure_reason] still hold the detail of the first failure. *)
Lemma later_normalization_failure_not_captured :
  ∃ c1 c2,
    @_smash_key Z (example_externals true qn_without_target (Ok tt) (Ok tt) (Ok tt))
      "E1" [(mkComputedFile "s1.tsv", mkSample "s1" "HOMO_SAPIENS")] qn_context
    = (Ok tt, c1) ∧
    @_smash_key Z (example_externals true qn_without_target (Ok tt) (Ok tt) (Ok tt))
      "E2" [(mkComputedFile "s2.tsv", mkSample "s2" "HOMO_SAPIENS")] c1
    = (Ok tt, c2) ∧
    ctx_failure_reason c2 = Some "No QN target for s2" ∧
    Job.failure_reason (job c2) = Some "Failure reason: No QN target for s1" ∧
    Dataset.failure_reason (dataset c2) = Some "Failure reason: No QN target for s1".
Proof.
  do 2 eexists. split; [vm_compute; reflexivity |].
  split; [vm_compute; reflexivity |]. by repeat split.
Qed.

(** ** The dataset's success flag over one run of [_smash_all] *)

(** C1.  The flag does not stay false.  On a dataset of two experiments whose
    quantile normalisation finds no target, [_smash_key] saves the dataset
    with [success = False] once per experiment; [_smash_all] then goes on,
    sets [success = True] and saves the dataset again.  The run ends with a
    dataset marked successful and a job marked failed. *)
Theorem dataset_success_reset_after_failed_normalization :
  ∃ c',
    @_smash_all Z (example_externals true qn_without_target (Ok tt) (Ok tt) (Ok tt))
      qn_context = (Ok tt, c') ∧
    Dataset.success <$> db c' = [Some false; Some false; Some true] ∧
    Dataset.success (dataset c') = Some true ∧
    Job.success (job c') = Some false ∧
    Job.failure_reason (job c') = Some "Failure reason: No QN target for s1".
Proof. eexists. split; [vm_compute; reflexivity |]. by repeat split. Qed.

(** ** Delivery: upload and notification *)
Section DeliverClaims.
Context {V : Type} `{!Externals V}.
Implicit Types (c : JobContext V).





(** The Slack step of [_notify] always returns; it changes the log only, by
    one warning when the post has failed. *)
Lemma notify_slack_step c :
  when (bool_decide (Job.success (job c) = Some false))
       (try_except _notify_slack_failed_dataset (λ e, log WARNING (str_exn e))) c
  = (Ok tt,
     set_logs
       (logs c ++
        if bool_decide (Job.success (job c) = Some false)
        then match (_notify_slack_failed_dataset c).1 with
             | Raise e => [(WARNING, str_exn e)]
             | Ok _ => []
             end
        else []) c).
Proof.
  unfold _notify_slack_failed_dataset. run_monad.
  destruct (bool_decide (Job.success (job c) = Some false)); simpl.
  - destruct (requests_post _ _ _) as [[]|e]; simpl;
      destruct c; simpl; by rewrite ?app_nil_r.
  - destruct c; simpl; by rewrite ?app_nil_r.
Qed.


End DeliverClaims.



(** ** The batch grouping check of the ArrayExpress downloader *)

(** The loop over [rest] either finds every batch on the first batch's URL
    and returns with the state untouched, or meets one that is not and raises
    [ValueError] after logging; it never touches the batches. *)
Lemma verify_each_run batches first rest job_id st :
  batches !! 0%nat = Some first →
  (Forall (λ b, download_url b = download_url first) rest ∧
   verify_each batches rest job_id st = (Ok tt, st)) ∨
  (Exists (λ b, download_url b ≠ download_url first) rest ∧
   ∃ st', verify_each batches rest job_id st =
            (Raise (ValueError
                      "A batch doesn't have the same download url as other batches."),
             st') ∧
          batches_of st' = batches_of st).
Proof.
  intros Hf. induction rest as [|b rest IH].
  - left. split; [constructor | done].
  - cbn [verify_each]. rewrite Hf.
    destruct (decide (download_url b ≠ download_url first)) as [Hne | Heq].
    + rewrite bool_decide_eq_true_2 by done. right.
      split; [by left |]. eexists. split; done.
    + rewrite bool_decide_eq_false_2 by done. apply dec_stable in Heq.
      destruct IH as [[HF Hr] | [HE Hr]].
      * left. split; [by constructor | done].
      * right. split; [by right | done].
Qed.

(** C10.  [_verify_batch_grouping] raises [ValueError] exactly when some batch
    of the list has a download URL other than that of the first batch, and
    returns normally exactly when every batch shares the first batch's URL
    (in particular on the empty list); in both cases the batches it was
    handed are unchanged. *)
Theorem verify_batch_grouping_raises_iff batches job_id :
  ((∃ msg, (_verify_batch_grouping batches job_id).1 = Raise (ValueError msg)) ↔
   (∃ first b, head batches = Some first ∧ b ∈ batches ∧
               download_url b ≠ download_url first)) ∧
  ((_verify_batch_grouping batches job_id).1 = Ok tt ↔
   (∀ first b, head batches = Some first → b ∈ batches →
               download_url b = download_url first)) ∧
  batches_of (_verify_batch_grouping batches job_id).2 = batches.
Proof.
  unfold _verify_batch_grouping. destruct batches as [|first rest].
  - simpl. split_and!; [| | done].
    + split; [by intros [? ?] | by intros (? & ? & ? & _)].
    + split; [by intros _ ? ? ? | done].
  - destruct (verify_each_run (first :: rest) first (first :: rest) job_id
                (mkDownloader (first :: rest) []) eq_refl)
      as [[HF ->] | [HE (st' & -> & Hst)]]; simpl.
    + rewrite Forall_forall in HF. split_and!; [| | done].
      * split; [by intros [? ?] |].
        intros (f & b & [= <-] & Hb & Hne). by destruct Hne; apply HF.
      * split; [| done]. intros _ f b [= <-] Hb. by apply HF.
    + apply Exists_exists in HE as (b & Hb & Hne). split_and!; [| | done].
      * split; [| by eexists]. intros _. by exists first, b.
      * split; [done |]. intros Hall. destruct Hne. by apply Hall.
Qed.

(** ** The URL builders *)
Section BuilderFacts.
Context `{!Web}.



End BuilderFacts.

(** ** More on the merge loop: columns, shape, and what it records *)
Section MergeExtras.
Context {V : Type}.
Implicit Types (l : Locals V) (c : JobContext V) (frame m : DataFrame V).

(** without a shared label no suffix is added *)
Lemma merge_columns_disjoint (lc rc : list string) :
  (∀ x, x ∈ lc → x ∉ rc) → merge_columns lc rc = lc ++ rc.
Proof.
  intros Hdis. unfold merge_columns. f_equal.
  - rewrite <- (map_id lc) at 2. apply map_ext_in. intros x Hx%list_elem_of_In.
    by rewrite bool_decide_eq_false_2 by by apply Hdis.
  - rewrite <- (map_id rc) at 2. apply map_ext_in. intros x Hx%list_elem_of_In.
    rewrite bool_decide_eq_false_2; [done |]. intros Hl. by apply (Hdis x).
Qed.

Lemma breaker_false frame m :
  breaker frame m = false → ∀ x, x ∈ columns m → x ∉ columns frame.
Proof.
  intros Hb x Hm Hf.
  assert (breaker frame m = true) as Ht by (apply breaker_true; eauto).
  congruence.
Qed.

Lemma committed_columns m frame :
  classify m frame = Committed →
  columns (merge m frame) = columns m ++ columns frame ∧
  ∀ x, x ∈ columns m → x ∉ columns frame.
Proof.
  unfold classify. destruct (breaker frame m) eqn:Hb; [done |]. intros _.
  split; [| by apply breaker_false].
  simpl. apply merge_columns_disjoint. by apply breaker_false.
Qed.

Lemma fold_step_columns frames m :
  columns (fold_left step_merged frames m) =
  columns m ++ flat_map columns (accepted_from m frames).
Proof.
  revert m. induction frames as [|frame rest IH]; intros m; simpl.
  - by rewrite app_nil_r.
  - rewrite IH. unfold step_merged.
    destruct (classify m frame) eqn:Hcl; try done.
    destruct (committed_columns _ _ Hcl) as [-> _]. simpl.
    by rewrite <- app_assoc.
Qed.

Lemma fold_step_columns_NoDup frames m :
  NoDup (columns m) → Forall (λ f, NoDup (columns f)) frames →
  NoDup (columns (fold_left step_merged frames m)).
Proof.
  revert m. induction frames as [|frame rest IH]; intros m Hm Hfs; simpl; [done |].
  apply Forall_cons in Hfs as [Hf Hfs]. apply IH; [| done].
  unfold step_merged. destruct (classify m frame) eqn:Hcl; try done.
  destruct (committed_columns _ _ Hcl) as [-> Hdis].
  apply NoDup_app. split_and!; done.
Qed.

(** the rows of a rectangular frame all have its number of columns *)
Lemma rows_width df (kr : string * list V) :
  wf df → kr ∈ rows df → length kr.2 = length (columns df).
Proof.
  intros [_ Hc] Hin. destruct kr as [k r]. apply elem_of_zip_r in Hin.
  rewrite Forall_forall in Hc. by apply Hc.
Qed.

Lemma wf_merge (a b : DataFrame V) : wf a → wf b → wf (merge a b).
Proof.
  intros Ha Hb. split; simpl.
  - by rewrite !length_fmap.
  - apply Forall_forall. intros r Hr.
    apply list_elem_of_fmap in Hr as ([k r'] & -> & Hin). simpl.
    apply list_elem_of_In, in_flat_map in Hin as (lr & Hlr & Hin).
    apply in_map_iff in Hin as (rr & [= <- <-] & Hrr).
    apply list_elem_of_In in Hlr, Hrr. apply list_elem_of_filter in Hrr as [_ Hrr].
    rewrite length_app, (rows_width a lr Ha Hlr), (rows_width b rr Hb Hrr).
    unfold merge_columns. by rewrite length_app, !length_map.
Qed.

Lemma fold_step_wf frames m :
  wf m → Forall wf frames → wf (fold_left step_merged frames m).
Proof.
  revert m. induction frames as [|frame rest IH]; intros m Hm Hfs; simpl; [done |].
  apply Forall_cons in Hfs as [Hf Hfs]. apply IH; [| done].
  unfold step_merged. destruct (classify m frame); try done. by apply wf_merge.
Qed.

Local Opaque merge Nat.modulo.

(** what a run of the loop from a head state leaves in the context *)
Lemma while_loop_effect frames l c :
  merged_backup l = merged l →
  old_len_merged l = len (merged l) →
  ∃ l' lg, while_loop frames l c =
             (Ok l',
              set_logs (logs c ++ lg)
                (set_unsmashable_files
                   (unsmashable_files c ++
                    flat_map (λ f, take 1 (columns f))
                             (rolled_back_from (merged l) frames)) c)) ∧
    merged l' = fold_left step_merged frames (merged l).
Proof.
  revert l c. induction frames as [|frame rest IH]; intros l c Hb Hn.
  - exists l, []. split; [| done]. simpl. unfold ret. destruct c; simpl.
    by rewrite !app_nil_r.
  - assert (∃ lg1, loop_body frame l c =
              (Ok (mkLocals (i l + 1) (step_merged (merged l) frame)
                            (len (step_merged (merged l) frame))
                            (step_merged (merged l) frame)),
               set_logs (logs c ++ lg1)
                 (set_unsmashable_files
                    (unsmashable_files c ++
                     match classify (merged l) frame with
                     | RolledBack => take 1 (columns frame)
                     | _ => []
                     end) c))) as [lg1 Hbody].
    { unfold loop_body, step_merged, classify; cbv zeta. rewrite Hb, Hn.
      destruct (bool_decide ((i l + 1) `mod` 1000 = 0)) eqn:Hi;
        destruct (breaker frame (merged l)) eqn:Hbr;
        destruct (bool_decide (len (merge (merged l) frame) < len (merged l)))
          eqn:Hlt;
        destruct (bool_decide (len (merge (merged l) frame) = 0)) eqn:Hz;
        destruct (columns frame) as [|c0 cs];
        run_monad;
        exists
          ((if bool_decide ((i l + 1) `mod` 1000 = 0)
            then [(INFO, "Smashing keyframe")] else []) ++
           (if breaker frame (merged l)
            then [(WARNING, "Column repeated for smash job!")]
            else
              (if bool_decide (len (merge (merged l) frame) < len (merged l))
               then [(WARNING, "Dropped rows while smashing!")] else []) ++
              (if bool_decide (len (merge (merged l) frame) = 0)
               then [(WARNING, "Skipping a bad merge frame!")] else [])));
        rewrite ?Hi, ?Hbr, ?Hlt, ?Hz; destruct c; simpl;
        rewrite ?app_nil_r, <- ?app_assoc; reflexivity. }
    cbn [while_loop]. unfold bind at 1. rewrite Hbody.
    set (l1 := mkLocals _ _ _ _). set (c1 := set_logs _ _).
    destruct (IH l1 c1 eq_refl eq_refl) as (l' & lg & Hw & Hm).
    exists l', (lg1 ++ lg). rewrite Hw. split; [| exact Hm].
    f_equal. subst c1 l1. cbn [rolled_back_from merged]. unfold step_merged.
    destruct (classify (merged l) frame); destruct c; simpl;
      by rewrite ?app_nil_r, <- ?app_assoc.
Qed.

(** [_inner_join] on a non-empty list: its result and what it leaves in the
    context. *)
Lemma inner_join_effect c first rest :
  all_frames c = first :: rest →
  ∃ lg,
    _inner_join c =
      (Ok (fold_left step_merged rest first),
       set_logs (logs c ++ lg)
         (set_unsmashable_files
            (unsmashable_files c ++
             flat_map (λ f, take 1 (columns f)) (rolled_back_from first rest))
            c)).
Proof.
  intros Hf. unfold _inner_join. unfold bind at 1, get. rewrite Hf.
  destruct (while_loop_effect rest (loop_entry first) c eq_refl eq_refl)
    as (l' & lg & Hw & Hm).
  exists lg. unfold bind, ret. fold (loop_entry first).
  rewrite Hw. simpl in Hm. by rewrite Hm.
Qed.

(** X1.  For a non-empty list of frames [_inner_join] returns, and of the
    context it changes the log and the unsmashable list only: the list gains
    the first column name of each rolled-back frame, in the order of the
    frames; a frame skipped for a repeated column is never recorded. *)
Theorem inner_join_records_rolled_back c first rest :
  all_frames c = first :: rest →
  ∃ merged lg,
    _inner_join c =
      (Ok merged,
       set_logs (logs c ++ lg)
         (set_unsmashable_files
            (unsmashable_files c ++
             flat_map (λ f, take 1 (columns f)) (rolled_back_from first rest))
            c)) ∧
    merged = fold_left step_merged rest first.
Proof.
  intros Hf. destruct (inner_join_effect c first rest Hf) as [lg Hrun].
  by exists (fold_left step_merged rest first), lg.
Qed.

(** X2.  The columns of the matrix that [_inner_join] returns are the columns
    of the accepted frames, in order and under their own names: the check for
    repeated columns keeps pandas from ever adding a suffix.  If no frame
    repeats a column name within itself, no column name occurs twice in the
    result. *)
Theorem inner_join_columns c first rest :
  all_frames c = first :: rest →
  ∃ merged c',
    _inner_join c = (Ok merged, c') ∧
    columns merged = flat_map columns (accepted (first :: rest)) ∧
    (Forall (λ f, NoDup (columns f)) (first :: rest) → NoDup (columns merged)).
Proof.
  intros Hf. destruct (inner_join_run c first rest Hf) as (c' & Hrun & _).
  exists (fold_left step_merged rest first), c'. split; [done |]. split.
  - by rewrite fold_step_columns.
  - intros [H1 Hr]%Forall_cons. by apply fold_step_columns_NoDup.
Qed.

(** X3.  Rectangular frames merge into a rectangular matrix: if every frame
    has as many value rows as row labels and as many cells per row as column
    labels, so has the result of [_inner_join]. *)
Theorem inner_join_rectangular c first rest :
  all_frames c = first :: rest →
  Forall wf (first :: rest) →
  ∃ merged c', _inner_join c = (Ok merged, c') ∧ wf merged.
Proof.
  intros Hf [H1 Hr]%Forall_cons.
  destruct (inner_join_run c first rest Hf) as (c' & Hrun & _).
  exists (fold_left step_merged rest first), c'. split; [done |].
  by apply fold_step_wf.
Qed.
End MergeExtras.

Lemma inner_join_records_rolled_back_witness :
  ∃ merged lg,
    _inner_join (a_context [frame_AB; frame_CD; frame_s1_again; frame_ABC]) =
      (Ok merged,
       set_logs lg
         (set_unsmashable_files ["s4"; "s1"]
            (a_context [frame_AB; frame_CD; frame_s1_again; frame_ABC]))) ∧
    columns merged = ["s3"; "s1"].
Proof.
  destruct (inner_join_records_rolled_back
              (a_context [frame_AB; frame_CD; frame_s1_again; frame_ABC])
              frame_AB [frame_CD; frame_s1_again; frame_ABC] eq_refl)
    as (merged & lg & Hrun & Hm).
  exists merged, lg. split; [exact Hrun |]. rewrite Hm. reflexivity.
Defined.

Lemma inner_join_columns_witness :
  ∃ merged c',
    _inner_join (a_context [frame_ABC; frame_s1_again; frame_BCD]) = (Ok merged, c') ∧
    columns merged = ["s1"; "s2"] ∧ NoDup (columns merged).
Proof.
  destruct (inner_join_columns (a_context [frame_ABC; frame_s1_again; frame_BCD])
              frame_ABC [frame_s1_again; frame_BCD] eq_refl)
    as (merged & c' & Hrun & Hcols & Hnd).
  exists merged, c'. split; [exact Hrun |]. split; [exact Hcols |].
  apply Hnd. repeat constructor; simpl; intros Hin%list_elem_of_In; simpl in Hin;
    intuition discriminate.
Defined.

Lemma inner_join_rectangular_witness :
  ∃ merged c',
    _inner_join (a_context [frame_ABC; frame_BCD]) = (Ok merged, c') ∧ wf merged.
Proof.
  apply (inner_join_rectangular (a_context [frame_ABC; frame_BCD])
           frame_ABC [frame_BCD] eq_refl).
  repeat constructor.
Defined.

(** ** More on [process_frames_for_key] and [_smash_key] *)
Section SmashKeyExtras.
Context {V : Type} `{!Externals V}.
Implicit Types (c : JobContext V) (files : list (ComputedFile * Sample)).
Local Opaque merge Nat.modulo.

Lemma omap_filter_length {A B} (f : A → option B) (l : list A) :
  length (omap f l) + length (filter (λ x, f x = None) l) = length l.
Proof.
  induction l as [|x l IH]; [done |]. cbn [omap list_omap]. rewrite filter_cons.
  destruct (decide (f x = None)) as [Hx | Hx].
  - rewrite Hx. simpl. lia.
  - destruct (f x); [simpl; lia | done].
Qed.

Lemma omap_all_None {A B} (f : A → option B) (l : list A) :
  (∀ x, x ∈ l → f x = None) → omap f l = [].
Proof.
  induction l as [|x l IH]; intros Hall; [done |]. cbn [omap list_omap].
  rewrite (Hall x) by left. apply IH. intros y Hin. apply Hall. by right.
Qed.

Lemma filter_all {A} (P : A → Prop) `{!∀ x, Decision (P x)} (l : list A) :
  (∀ x, x ∈ l → P x) → filter P l = l.
Proof.
  induction l as [|x l IH]; intros Hall; [done |]. rewrite filter_cons.
  rewrite decide_True by (apply Hall; left). f_equal. apply IH.
  intros y Hin. apply Hall. by right.
Qed.

(** X4.  [process_frames_for_key] always returns.  It starts from an empty
    list of frames, whatever the context held, and splits the files in two:
    the frames that could be read, in the order of the files, and the file
    names of the others, which are added to the unsmashable names already in
    the context.  Every file ends up on exactly one side; the job, the
    dataset and the saved rows are untouched. *)
Theorem process_frames_splits_files key files c :
  ∃ c1, process_frames_for_key key files c = (Ok tt, c1) ∧
    all_frames c1 =
      omap (λ fs, process_frame (work_dir c) fs.1 (accession_code fs.2)
                    (Dataset.aggregate_by (dataset c))) files ∧
    unsmashable_files c1 =
      unsmashable_files c ++
      ((λ fs, filename fs.1) <$>
       filter (λ fs, process_frame (work_dir c) fs.1 (accession_code fs.2)
                       (Dataset.aggregate_by (dataset c)) = None) files) ∧
    length (all_frames c1) + length (unsmashable_files c1) =
      length files + length (unsmashable_files c) ∧
    original_merged c1 = Some empty_frame ∧
    job c1 = job c ∧ dataset c1 = dataset c ∧ db c1 = db c.
Proof.
  destruct (process_frames_for_key_run key files c)
    as (c1 & Hrun & Hj & Hd & Hdb & _ & _ & _ & Hom & Hfr & Hun).
  exists c1. split_and!; try done.
  rewrite Hfr, Hun, length_app, length_fmap.
  pose proof (omap_filter_length
                (λ fs : ComputedFile * Sample,
                   process_frame (work_dir c) fs.1 (accession_code fs.2)
                     (Dataset.aggregate_by (dataset c))) files).
  lia.
Qed.

(** X5.  A key none of whose files can be read (an empty key included) is
    passed over: [_smash_key] logs an error and returns normally; the job
    and the dataset are not marked failed, nothing is saved, no frame is
    written, and every file name of the key is on the unsmashable list. *)
Theorem smash_key_without_frames key files c :
  Dataset.quant_sf_only (dataset c) = false →
  (∀ fs, fs ∈ files →
         process_frame (work_dir c) fs.1 (accession_code fs.2)
           (Dataset.aggregate_by (dataset c)) = None) →
  ∃ c', _smash_key key files c = (Ok tt, c') ∧
    job c' = job c ∧ dataset c' = dataset c ∧ db c' = db c ∧
    final_frame c' = final_frame c ∧ smash_outfile c' = smash_outfile c ∧
    all_frames c' = [] ∧
    unsmashable_files c' = unsmashable_files c ++ ((λ fs, filename fs.1) <$> files) ∧
    (ERROR, "Was told to smash a key with no frames!") ∈ logs c'.
Proof.
  intros Hsf Hnone.
  pose proof (omap_all_None
                (λ fs : ComputedFile * Sample,
                   process_frame (work_dir c) fs.1 (accession_code fs.2)
                     (Dataset.aggregate_by (dataset c))) files Hnone) as Hom.
  pose proof (filter_all
                (λ fs : ComputedFile * Sample,
                   process_frame (work_dir c) fs.1 (accession_code fs.2)
                     (Dataset.aggregate_by (dataset c)) = None) files Hnone)
    as Hfl.
  unfold _smash_key. unfold bind at 1, get at 1. rewrite Hsf.
  unfold process_frames_for_key, bind, modify, get. rewrite load_frames_run.
  cbn [work_dir dataset all_frames set_original_merged set_all_frames
         set_logs set_unsmashable_files].
  rewrite Hom, Hfl. simpl. unfold log, modify.
  eexists. split; [reflexivity |]. destruct c; simpl. split_and!; try done.
  apply elem_of_app. right. by apply list_elem_of_singleton.
Qed.

(** X6.  The plain path of [_smash_key]: without quantile normalisation and
    with [scale_by = "NONE"], for rectangular frames of which at least one
    could be read, the frame kept as [final_frame] and written to
    [<output_dir><key>/<key>.tsv] is the inner join of the frames itself; the
    job and the dataset are untouched and nothing is saved. *)
Theorem smash_key_plain key files c first rest :
  Dataset.quant_sf_only (dataset c) = false →
  Dataset.quantile_normalize (dataset c) = false →
  Dataset.scale_by (dataset c) = "NONE" →
  omap (λ fs, process_frame (work_dir c) fs.1 (accession_code fs.2)
                (Dataset.aggregate_by (dataset c))) files = first :: rest →
  Forall wf (first :: rest) →
  makedirs (output_dir c +:+ key +:+ "/") = Ok tt →
  to_csv (fold_left step_merged rest first)
         ((output_dir c +:+ key +:+ "/") +:+ key +:+ ".tsv") = Ok tt →
  ∃ c', _smash_key key files c = (Ok tt, c') ∧
    final_frame c' = Some (fold_left step_merged rest first) ∧
    original_merged c' = Some (fold_left step_merged rest first) ∧
    smash_outfile c' = Some ((output_dir c +:+ key +:+ "/") +:+ key +:+ ".tsv") ∧
    job c' = job c ∧ dataset c' = dataset c ∧ db c' = db c.
Proof.
  intros Hsf Hqn Hscale Hframes [Hw1 Hwr]%Forall_cons Hmk Hcsv.
  destruct (process_frames_for_key_run key files c)
    as (c1 & Hrun & Hj & Hd & Hdb & _ & Hod & _ & _ & Hfr & _).
  rewrite Hframes in Hfr.
  destruct (inner_join_effect c1 first rest Hfr) as [lg Hjoin].
  unfold _smash_key. unfold bind at 1, get at 1. rewrite Hsf.
  unfold bind at 1. rewrite Hrun. unfold bind at 1, get at 1. rewrite Hfr.
  rewrite bool_decide_eq_false_2 by (simpl; lia).
  unfold bind at 1. rewrite Hjoin.
  set (merged := fold_left step_merged rest first) in *.
  assert (scale "NONE" merged = Ok merged) as Hsc.
  { unfold scale. rewrite bool_decide_eq_false_2 by (by intros []).
    rewrite transpose_involutive; [done |]. by apply fold_step_wf. }
  run_monad. destruct c1; simpl in *. subst.
  rewrite Hqn. simpl. rewrite Hscale, Hsc. simpl. rewrite Hmk. simpl.
  rewrite Hcsv.
  eexists. split; [reflexivity |]. by simpl.
Qed.

(** X7.  Any other [scale_by] than NONE, MINMAX, STANDARD and ROBUST makes
    the scaler raise [KeyError]: there is no default method. *)
Theorem scale_rejects_unknown_method scale_by (merged : DataFrame V) :
  scale_by ∉ ["NONE"; "MINMAX"; "STANDARD"; "ROBUST"] →
  scale scale_by merged = Raise (KeyError scale_by).
Proof.
  intros Hnot. unfold scale.
  rewrite bool_decide_eq_true_2 by (intros ->; apply Hnot; left).
  destruct (SCALERS scale_by) as [f|] eqn:Hf; [| done].
  destruct Hnot. right. apply SCALERS_keys. by rewrite Hf.
Qed.

(** X8.  When only the quant.sf files are asked for, no frame is read or
    merged and nothing is scaled: over any number of keys whose directories
    can be made and whose files can be copied, [num_samples] grows by the
    number of files copied for each key, and nothing else of the context
    changes. *)
Theorem quant_sf_only_counts_samples
    (items : list (string * list (ComputedFile * Sample))) c :
  Dataset.quant_sf_only (dataset c) = true →
  Forall (λ kf, makedirs (output_dir c +:+ kf.1 +:+ "/") = Ok tt ∧
                is_Ok (sync_quant_files (output_dir c +:+ kf.1 +:+ "/") kf.2.*2)
                = true) items →
  smash_keys items c =
  (Ok tt,
   set_num_samples
     (num_samples c +
      sum_list_with
        (λ kf, match sync_quant_files (output_dir c +:+ kf.1 +:+ "/") kf.2.*2 with
               | Ok n => n
               | Raise _ => 0
               end) items) c).
Proof.
  revert c. induction items as [|[key files] items IH]; intros c Hsf Hall.
  - simpl. unfold ret. destruct c; simpl. by rewrite Nat.add_0_r.
  - apply Forall_cons in Hall as [[Hmk Hsync] Hall]. simpl in Hmk, Hsync.
    cbn [smash_keys]. unfold bind at 1. unfold _smash_key.
    unfold bind at 1, get at 1. rewrite Hsf. run_monad. rewrite Hmk. simpl.
    destruct (sync_quant_files (output_dir c +:+ key +:+ "/") files.*2)
      as [n|] eqn:Hn; [| done]. simpl.
    rewrite IH; [| by destruct c | by destruct c].
    destruct c; simpl in *. by rewrite Nat.add_assoc.
Qed.
End SmashKeyExtras.

Lemma smash_key_without_frames_witness :
  ∃ c', @_smash_key Z cloud_externals "E9" [file_unreadable] (a_context []) = (Ok tt, c') ∧
    job c' = a_job ∧ final_frame c' = None ∧
    unsmashable_files c' = ["unreadable.tsv"].
Proof.
  destruct (@smash_key_without_frames Z cloud_externals "E9" [file_unreadable]
              (a_context []))
    as (c' & Hrun & Hj & _ & _ & Hff & _ & _ & Hun & _).
  - reflexivity.
  - intros fs Hin. apply list_elem_of_singleton in Hin as ->. reflexivity.
  - exists c'. repeat split; assumption.
Defined.

Lemma smash_key_plain_witness :
  ∃ c', @_smash_key Z cloud_externals "E1" [file_s1; file_unreadable; file_s2]
          (a_context []) = (Ok tt, c') ∧
    final_frame c' =
      Some (mkDataFrame ["A"; "B"] ["s1"; "s2"] [[1; 1]; [2; 2]]%Z) ∧
    smash_outfile c' = Some "/out/E1/E1.tsv".
Proof.
  destruct (@smash_key_plain Z cloud_externals "E1"
              [file_s1; file_unreadable; file_s2] (a_context [])
              (sample_frame "s1" [("A", 1); ("B", 2)]%Z)
              [sample_frame "s2" [("A", 1); ("B", 2)]%Z])
    as (c' & Hrun & Hff & _ & Hso & _); try reflexivity.
  - repeat constructor.
  - exists c'. repeat split; assumption.
Defined.

Lemma scale_rejects_unknown_method_witness :
  @scale Z cloud_externals "BOGUS" frame_ABC = Raise (KeyError "BOGUS").
Proof.
  apply (@scale_rejects_unknown_method Z cloud_externals "BOGUS" frame_ABC).
  intros Hin%list_elem_of_In. simpl in Hin. intuition discriminate.
Defined.

Lemma quant_sf_only_counts_samples_witness :
  @smash_keys Z cloud_externals
    [("E1", [file_s1; file_s2]); ("E2", [file_unreadable])] quant_sf_context
  = (Ok tt, set_num_samples 3 quant_sf_context).
Proof.
  apply (@quant_sf_only_counts_samples Z cloud_externals
           [("E1", [file_s1; file_s2]); ("E2", [file_unreadable])]
           quant_sf_context).
  - reflexivity.
  - repeat constructor.
Defined.

(** ** More on delivery: [_upload], [_notify], [_notify_send_email] *)








Section DeliverExtras.
Context {V : Type} `{!Externals V}.
Implicit Types (c : JobContext V).

(** X10.  Without an output file (the key is missing, or holds the empty
    string) [_upload] attempts nothing: it logs an error and returns; the job
    is not marked failed by this stage. *)
Theorem upload_without_output_file c :
  falsy (output_file c) = true →
  _upload c =
  (Ok tt,
   set_logs
     (logs c ++ [(ERROR, "Was told to upload a smash result without an output_file.")])
     c).
Proof.
  unfold falsy, _upload, bind, get, log, modify.
  destruct (output_file c) as [f|]; [| done].
  intros ->%bool_decide_eq_true. done.
Qed.

(** X11.  Outside the cloud, or when the caller asked for no upload, the
    delivery stages are inert: [_upload] and [_notify] return the context
    exactly as they found it, so no notification is ever sent for a run that
    did not upload. *)
Theorem delivery_inert_outside_cloud c output :
  default true (upload c) && RUNNING_IN_CLOUD = false →
  output_file c = Some output → output ≠ "" →
  _upload c = (Ok tt, c) ∧ _notify c = (Ok tt, c).
Proof.
  intros Hoff Hout Hne. split.
  - unfold _upload, bind, get. rewrite Hout, bool_decide_eq_false_2 by done.
    unfold try_except, upload_try, bind, get. by rewrite Hoff.
  - unfold _notify, bind, get.
    replace (negb (default true (upload c)) || negb RUNNING_IN_CLOUD) with true;
      [done |].
    destruct (default true (upload c)), RUNNING_IN_CLOUD; done.
Qed.

(** X12.  A successful upload: the archive is sent under the last component
    of its path, the result URL and the dataset's S3 fields, size and SHA1
    are set, and the dataset is saved once, with all of them.  Failing to
    remove the local file with an [OSError] is ignored.  The job is
    untouched. *)
Theorem upload_success c output size sha :
  output_file c = Some output → output ≠ "" →
  default true (upload c) && RUNNING_IN_CLOUD = true →
  s3_upload_file output RESULTS_BUCKET (last_component output) = Ok tt →
  calculate_file_size output = Ok size →
  calculate_sha1 output = Ok sha →
  (os_remove output = Ok tt ∨ ∃ msg, os_remove output = Raise (OSError msg)) →
  ∃ c', _upload c = (Ok tt, c') ∧
    job c' = job c ∧
    result_url c' =
      Some ("https://s3.amazonaws.com/" +:+ RESULTS_BUCKET +:+ "/"
            +:+ last_component output) ∧
    dataset c' =
      Dataset.set_sha1 (Some sha)
        (Dataset.set_size_in_bytes (Some size)
           (Dataset.set_s3_key (Some (last_component output))
              (Dataset.set_s3_bucket (Some RESULTS_BUCKET) (dataset c)))) ∧
    db c' = db c ++ [dataset c'].
Proof.
  intros Hout Hne Hon Hs3 Hsize Hsha Hrm.
  unfold _upload. unfold bind at 1, get at 1.
  rewrite Hout, bool_decide_eq_false_2 by done.
  unfold try_except, upload_try. unfold bind at 1, get at 1. rewrite Hon.
  unfold bind at 1, call at 1. rewrite Hs3.
  unfold bind at 1, modify at 1. unfold bind at 1, log at 1, modify at 1.
  unfold bind at 1, modify at 1. unfold bind at 1, modify at 1.
  unfold bind at 1, call at 1. rewrite Hsize.
  unfold bind at 1, modify at 1.
  unfold bind at 1, call at 1. rewrite Hsha.
  unfold bind at 1, modify at 1.
  unfold bind at 1, save_dataset at 1, modify at 1.
  unfold call, ret.
  destruct Hrm as [-> | [msg ->]]; (eexists; split; [reflexivity |]);
    by destruct c.
Qed.


(** X14.  Without an e-mail address on the dataset [_notify] cannot fail:
    whatever happens to the Slack post, it returns normally, and it leaves
    the job, the dataset and the context's [success] key alone. *)
Theorem notify_without_address_returns c :
  falsy (Dataset.email_address (dataset c)) = true →
  ∃ c', _notify c = (Ok tt, c') ∧
    job c' = job c ∧ dataset c' = dataset c ∧ ctx_success c' = ctx_success c ∧
    result_url c' = result_url c.
Proof.
  intros Hno. unfold _notify. unfold bind at 1, get at 1.
  destruct (negb (default true (upload c)) || negb RUNNING_IN_CLOUD).
  { exists c. by split. }
  unfold bind at 1, get at 1. unfold bind at 1. rewrite notify_slack_step.
  set (c1 := set_logs _ c). unfold bind, get.
  replace (dataset c1) with (dataset c) by (by destruct c).
  rewrite Hno. simpl. exists c1. split; [done |]. by destruct c.
Qed.

(** X15.  The e-mail for a failed job.  If the job carries a failure reason,
    the context's [success] key is set to false before the message goes out,
    and stays so whether or not SES accepts it; the message is the failure
    message, with the reason in its HTML body.  If the job is marked failed
    but carries no reason, building the message raises and nothing is
    sent or changed. *)
Theorem failed_job_email c :
  Job.success (job c) = Some false →
  match Job.failure_reason (job c) with
  | Some reason =>
      (_notify_send_email c).2 = set_ctx_success (Some false) c ∧
      ∃ text,
        (_notify_send_email c).1 =
          ses_send_email (str_opt (Dataset.email_address (dataset c)))
            "There was a problem processing your refine.bio dataset :(" text
            (render_error_html (dataset_url (dataset c)) reason)
  | None =>
      _notify_send_email c =
        (Raise (OtherError "replace() argument 2 must be str, not None"), c)
  end.
Proof.
  intros Hfailed. unfold _notify_send_email. run_monad.
  rewrite bool_decide_eq_true_2 by done. simpl.
  destruct (Job.failure_reason (job c)) as [reason|]; simpl; [| done].
  split; [done |]. eexists. reflexivity.
Qed.
End DeliverExtras.

Lemma upload_without_output_file_witness :
  @_upload Z cloud_externals failed_context =
  (Ok tt,
   set_logs [(ERROR, "Was told to upload a smash result without an output_file.")]
     failed_context).
Proof.
  apply (@upload_without_output_file Z cloud_externals failed_context).
  reflexivity.
Defined.

Lemma delivery_inert_outside_cloud_witness :
  @_upload Z local_externals smashed_context = (Ok tt, smashed_context) ∧
  @_notify Z local_externals smashed_context = (Ok tt, smashed_context).
Proof.
  apply (@delivery_inert_outside_cloud Z local_externals smashed_context
           "/home/user/data_store/smashed/ds1.zip"); done.
Defined.

Lemma upload_success_witness :
  ∃ c', @_upload Z cloud_externals smashed_context = (Ok tt, c') ∧
    job c' = job smashed_context ∧
    result_url c' = Some "https://s3.amazonaws.com/refinebio-results-bucket/ds1.zip" ∧
    Dataset.s3_key (dataset c') = Some "ds1.zip" ∧
    length (db c') = 1.
Proof.
  destruct (@upload_success Z cloud_externals smashed_context
              "/home/user/data_store/smashed/ds1.zip" 1024%Z
              "da39a3ee5e6b4b0d3255bfef95601890afd80709")
    as (c' & Hrun & Hj & Hurl & Hd & Hdb); try done; [by left |].
  exists c'. rewrite Hdb, Hd. repeat split; assumption.
Defined.


Lemma notify_without_address_returns_witness :
  ∃ c',
    @_notify Z (example_externals true qn_silent (Ok tt)
                  (Raise (OtherError "slack down")) (Ok tt))
      (set_dataset (Dataset.mk "ds1" "EXPERIMENT" "NONE" false false (Some false)
                      None None None None None None true false false)
         failed_context) = (Ok tt, c') ∧
    job c' = job failed_context.
Proof.
  edestruct (@notify_without_address_returns Z
               (example_externals true qn_silent (Ok tt)
                  (Raise (OtherError "slack down")) (Ok tt))
               (set_dataset (Dataset.mk "ds1" "EXPERIMENT" "NONE" false false
                               (Some false) None None None None None None true
                               false false) failed_context))
    as (c' & Hrun & Hj & _); [reflexivity |].
  exists c'. split; [exact Hrun | exact Hj].
Defined.

Lemma failed_job_email_witness :
  (@_notify_send_email Z (example_externals true qn_silent (Ok tt) (Ok tt)
                            (Raise (ClientError "throttled"))) failed_context).2
  = set_ctx_success (Some false) failed_context.
Proof.
  apply (@failed_job_email Z (example_externals true qn_silent (Ok tt) (Ok tt)
                                (Raise (ClientError "throttled"))) failed_context).
  reflexivity.
Defined.
